(** * LicenseGuard-UI: a shallow embedding of the client logic

    The development follows the layout of the repository:

    - [JS]          the fragment of JavaScript values the code relies on
                    (strings as sequences of UTF-16 code units, truthiness,
                    [endsWith], [trim], thrown values, promise completions);
    - [FileUpload]  [components/ui/file-upload.tsx];
    - [Validators]  [lib/validators.ts] (the zod schemas);
    - [Api]         [services/api.ts];
    - [LoginPage], [SignUpPage], [MainPage]  the page controllers.

    React state is modelled by explicit state passing: a component is a
    record of its [useState] cells, a handler is a function on that record.
    Calls that leave the component (the [onChange] prop, [fetch],
    [navigate], the session store) are recorded in the handler's result. *)

From stdpp Require Import base option list strings gmap.
From Stdlib Require Import NArith Ascii.

Set Default Proof Using "Type".

(** ** JavaScript values *)

Module JS.

(** A JavaScript string is a finite sequence of UTF-16 code units;
    [s.length] is the number of code units and [===] on strings is
    equality of the sequences. *)
Definition jsstring : Type := list N.

(** A string literal of the source (all literals of the repository that
    matter here are ASCII). *)
Definition lit (s : string) : jsstring :=
  (fun a => N_of_ascii a) <$> String.list_ascii_of_string s.

(** [a === b] on strings. *)
Definition str_eqb (a b : jsstring) : bool := bool_decide (a = b).

(** [!!s] on a string: the empty string is the only falsy one. *)
Definition truthy (s : jsstring) : bool :=
  match s with [] => false | _ :: _ => true end.

(** [!!v] on a value of type [string | null]. *)
Definition truthy_opt (v : option jsstring) : bool :=
  match v with None => false | Some s => truthy s end.

(** [s.endsWith(search)]: with [start = s.length - search.length], the
    result is [false] when [start < 0], and otherwise tells whether the
    code units of [s] from [start] on are those of [search]. *)
Definition endsWith (s search : jsstring) : bool :=
  if (length search <=? length s)%nat
  then bool_decide (drop (length s - length search) s = search)
  else false.

(** The code units that [String.prototype.trim] strips: WhiteSpace and
    LineTerminator of ECMA-262. *)
Definition is_whitespace (c : N) : bool :=
  ((9 <=? c) && (c <=? 13)          (* TAB, LF, VT, FF, CR *)
   || (c =? 32) || (c =? 160)       (* SP, NBSP *)
   || (c =? 5760)                   (* U+1680 *)
   || (8192 <=? c) && (c <=? 8202)  (* U+2000 .. U+200A *)
   || (c =? 8232) || (c =? 8233)    (* LS, PS *)
   || (c =? 8239) || (c =? 8287)    (* U+202F, U+205F *)
   || (c =? 12288) || (c =? 65279)  (* U+3000, U+FEFF *))%N.

Fixpoint trimStart (s : jsstring) : jsstring :=
  match s with
  | c :: s' => if is_whitespace c then trimStart s' else s
  | [] => []
  end.

Definition trimEnd (s : jsstring) : jsstring := reverse (trimStart (reverse s)).

(** [s.trim()]. *)
Definition trim (s : jsstring) : jsstring := trimEnd (trimStart s).

(** What a [throw] or a rejected promise carries.  The code only ever
    asks [err instanceof Error] and reads [err.message]. *)
Inductive Thrown : Type :=
| ErrorObj (message : jsstring)   (* an instance of [Error] *)
| NonError.                       (* any other thrown value *)

(** The state of a promise as seen by an [await]: fulfilled, rejected,
    or not settled (yet). *)
Inductive Completion (A : Type) : Type :=
| Fulfilled (a : A)
| Rejected (e : Thrown)
| Unsettled.
Arguments Fulfilled {A} a.
Arguments Rejected {A} e.
Arguments Unsettled {A}.

End JS.

Import JS.

(** The DOM [File] object, as far as the code reads it. *)
Module File.
Record t : Type := mk { name : jsstring; type : jsstring; size : N }.
End File.

(** ** [components/ui/file-upload.tsx] *)

Module FileUpload.

Definition MAX_FILE_SIZE : N := 1 * 1024 * 1024.

(** The three [useState] cells of the component. *)
Record t : Type := mk {
  file : option File.t;
  error : option jsstring;
  isDragging : bool
}.

Definition initial : t := {| file := None; error := None; isDragging := false |}.

Definition setFile (f : option File.t) (s : t) : t :=
  {| file := f; error := error s; isDragging := isDragging s |}.
Definition setError (e : option jsstring) (s : t) : t :=
  {| file := file s; error := e; isDragging := isDragging s |}.
Definition setIsDragging (b : bool) (s : t) : t :=
  {| file := file s; error := error s; isDragging := b |}.

(** A handler returns the new state together with the arguments of the
    calls [onChange?.(...)] it made, in order. *)
Definition result : Type := t * list (option File.t).

Definition handleFileChange (selectedFile : option File.t) (s : t) : result :=
  match selectedFile with
  | Some f =>
      if negb (str_eqb (File.type f) (lit "text/plain")) then
        (setFile None (setError (Some (lit "Only text files are allowed (MIME type: text/plain)")) s),
         [None])
      else if negb (endsWith (File.name f) (lit ".txt")) then
        (setFile None (setError (Some (lit "Only .txt files are allowed")) s),
         [None])
      else if (MAX_FILE_SIZE <? File.size f)%N then
        (setFile None (setError (Some (lit "File size must not exceed 1 MB")) s),
         [None])
      else
        (setFile (Some f) (setError None s), [Some f])
  | None => (s, [])
  end.

(** [e.target.files?.[0] || null] *)
Definition first_file (files : list File.t) : option File.t := head files.

Definition handleInputChange (files : list File.t) (s : t) : result :=
  handleFileChange (first_file files) s.

Definition handleDragOver (s : t) : t := setIsDragging true s.
Definition handleDragLeave (s : t) : t := setIsDragging false s.

Definition handleDrop (files : list File.t) (s : t) : result :=
  handleFileChange (first_file files) (setIsDragging false s).

Definition handleRemoveFile (s : t) : result :=
  (setError None (setFile None s), [None]).

(** What the component shows: the chip with the file name when a file is
    selected, otherwise the drop zone, preceded by the error box when
    [error] is truthy. *)
Inductive view : Type :=
| FileChip (filename : jsstring)
| DropZone (errorBox : option jsstring).

Definition render (s : t) : view :=
  match file s with
  | Some f => FileChip (File.name f)
  | None => DropZone (if truthy_opt (error s) then error s else None)
  end.

(** The parent's [onChange] prop is optional; the recorded calls reach
    it one after the other. *)
Definition notify {P : Type} (onChange : option (option File.t -> P -> P))
    (calls : list (option File.t)) (p : P) : P :=
  match onChange with
  | Some cb => foldl (fun p arg => cb arg p) p calls
  | None => p
  end.

End FileUpload.

(** ** What leaves the browser: requests, responses, the environment *)

Module Net.

(** Parsed JSON, as returned by [response.json()]. *)
#[local] Unset Elimination Schemes.
Inductive Json : Type :=
| JNull
| JBool (b : bool)
| JNumber (n : Z)
| JString (s : jsstring)
| JArray (items : list Json)
| JObject (fields : list (jsstring * Json)).
#[local] Set Elimination Schemes.

Inductive FormValue : Type :=
| Text (s : jsstring)
| Blob (f : File.t).

Inductive Body : Type :=
| URLSearchParams (fields : list (jsstring * jsstring))
| JsonText (v : Json)                                 (* [JSON.stringify(v)] *)
| FormData (fields : list (jsstring * FormValue)).

Record Request : Type := {
  url : jsstring;
  method : jsstring;
  headers : list (jsstring * jsstring);
  body : Body
}.

(** How a response body stream ends after its chunks: closed by the
    server, failed, or still open with nothing more received so far. *)
Inductive StreamTail : Type :=
| Closed
| Errored (e : Thrown)
| Pending.

(** [response.body.pipeThrough(new TextDecoderStream())]: the decoded
    text chunks in the order the reader yields them. *)
Record TextStream : Type := { chunks : list jsstring; tail : StreamTail }.

Record Response : Type := {
  ok : bool;
  text : Completion jsstring;          (* [response.text()] *)
  json : Completion Json;              (* [response.json()] *)
  stream : option TextStream           (* [response.body], decoded *)
}.

(** [import.meta.env] *)
Record ImportMetaEnv : Type := {
  VITE_API_HOST : jsstring;
  VITE_API_PORT : jsstring;
  VITE_AI_AGENT_HOST : jsstring;
  VITE_AI_AGENT_PORT : jsstring
}.

(** Everything outside the page that the code consults. *)
Record World : Type := {
  env : ImportMetaEnv;
  localStorage : gmap string jsstring;
  fetch : Request -> Completion Response
}.

(** [localStorage.getItem(key)] *)
Definition getItem (w : World) (key : string) : option jsstring :=
  localStorage w !! key.

(** Calls out of a page controller, in program order. *)
Inductive Effect : Type :=
| Fetch (r : Request)
| SessionLogin (token : option Json)   (* [login(data.access_token)] *)
| Navigate (to : jsstring).

Definition is_fetch (e : Effect) : bool :=
  match e with Fetch _ => true | _ => false end.

(** The requests among the recorded calls. *)
Definition requests (log : list Effect) : list Request :=
  omap (fun e => match e with Fetch r => Some r | _ => None end) log.

End Net.

Import Net.

(** ** [async] functions over a component state

    An [async] function body over state [S] runs from a state, performs
    calls, and is fulfilled, rejected, or left waiting on a promise that
    has not settled. *)

Module Async.

Definition t (S A : Type) : Type := S -> S * list Effect * Completion A.

Section ops.
Context {S : Type}.

Definition ret {A} (a : A) : t S A := fun s => (s, [], Fulfilled a).
Definition throw {A} (e : Thrown) : t S A := fun s => (s, [], Rejected e).
Definition wait {A} : t S A := fun s => (s, [], Unsettled).

Definition bind {A B} (m : t S A) (k : A -> t S B) : t S B := fun s =>
  match m s with
  | (s1, log1, Fulfilled a) =>
      let '(s2, log2, c) := k a s1 in (s2, log1 ++ log2, c)
  | (s1, log1, Rejected e) => (s1, log1, Rejected e)
  | (s1, log1, Unsettled) => (s1, log1, Unsettled)
  end.

(** A state setter call. *)
Definition modify (f : S -> S) : t S unit := fun s => (f s, [], Fulfilled tt).

Definition emit (e : Effect) : t S unit := fun s => (s, [e], Fulfilled tt).

(** [await p] for a promise whose fate is known. *)
Definition await {A} (p : Completion A) : t S A := fun s => (s, [], p).

(** [await fetch(...)] *)
Definition fetch (w : World) (r : Request) : t S Response := fun s =>
  (s, [Fetch r], Net.fetch w r).

(** [try { m } catch (err) { h err }] *)
Definition try_catch {A} (m : t S A) (h : Thrown -> t S A) : t S A := fun s =>
  match m s with
  | (s1, log1, Rejected e) =>
      let '(s2, log2, c) := h e s1 in (s2, log1 ++ log2, c)
  | r => r
  end.

(** [try { m } finally { f }] where [f] only calls state setters. *)
Definition finally {A} (m : t S A) (f : S -> S) : t S A := fun s =>
  match m s with
  | (s1, log1, Unsettled) => (s1, log1, Unsettled)
  | (s1, log1, c) => (f s1, log1, c)
  end.
End ops.

Module Import notations.
Notation "x <- m ;; k" := (bind m (fun x => k))
  (at level 100, m at next level, right associativity).
Notation "m ;; k" := (bind m (fun _ => k))
  (at level 100, right associativity).
End notations.

End Async.

Import Async.notations.

(** ** [lib/validators.ts]

    The part of zod the schemas use.  A string schema is its list of
    checks in the order they were chained; parsing runs them in that order
    on the current value, [trim] replacing the value by its trimmed form
    for whatever comes after it. *)

Module Validators.

Inductive StringCheck : Type :=
| Min (value : nat) (message : jsstring)
| Max (value : nat) (message : jsstring)
| Trim.

Definition ZodString : Type := list StringCheck.

Record Issue : Type := { path : list string; message : jsstring }.

(** Runs the checks from left to right; returns the output value and the
    messages of the failed checks, in order. *)
Fixpoint parseString (checks : ZodString) (data : jsstring) : jsstring * list jsstring :=
  match checks with
  | [] => (data, [])
  | Min n msg :: rest =>
      let '(out, msgs) := parseString rest data in
      (out, if (length data <? n)%nat then msg :: msgs else msgs)
  | Max n msg :: rest =>
      let '(out, msgs) := parseString rest data in
      (out, if (n <? length data)%nat then msg :: msgs else msgs)
  | Trim :: rest => parseString rest (trim data)
  end.

(** The issues of one object key. *)
Definition parseField (key : string) (schema : ZodString) (data : jsstring)
    : jsstring * list Issue :=
  let '(out, msgs) := parseString schema data in
  (out, (fun m => {| path := [key]; message := m |}) <$> msgs).

Inductive SafeParse (A : Type) : Type :=
| Success (data : A)
| Failure (issues : list Issue).
Arguments Success {A} data.
Arguments Failure {A} issues.

Definition usernameSchema : ZodString :=
  [ Min 4 (lit "Username must be at least 4 characters.");
    Max 100 (lit "Username must not exceed 100 characters.");
    Trim ].

Definition passwordSchema : ZodString :=
  [ Min 4 (lit "Password must be at least 4 characters.") ].

Record LoginInput : Type := { username : jsstring; password : jsstring }.

(** [loginSchema.safeParse(input)] *)
Definition loginSchema (input : LoginInput) : SafeParse LoginInput :=
  let '(u, iu) := parseField "username" usernameSchema (username input) in
  let '(p, ip) := parseField "password" passwordSchema (password input) in
  match iu ++ ip with
  | [] => Success {| username := u; password := p |}
  | issues => Failure issues
  end.

Record SignUpInput : Type := {
  su_username : jsstring;
  su_password : jsstring;
  su_confirmPassword : jsstring
}.

(** [signUpSchema.safeParse(input)]: the three fields, then the
    refinement on the parsed object. *)
Definition signUpSchema (input : SignUpInput) : SafeParse SignUpInput :=
  let '(u, iu) := parseField "username" usernameSchema (su_username input) in
  let '(p, ip) := parseField "password" passwordSchema (su_password input) in
  let '(c, ic) := parseField "confirmPassword" passwordSchema (su_confirmPassword input) in
  let refinement :=
    if str_eqb p c then []
    else [ {| path := ["confirmPassword"]; message := lit "Passwords do not match" |} ] in
  match iu ++ ip ++ ic ++ refinement with
  | [] => Success {| su_username := u; su_password := p; su_confirmPassword := c |}
  | issues => Failure issues
  end.

End Validators.

(** ** [services/api.ts] *)

Module Api.

Section api.
Context {S : Type} (w : World).

Definition API_URL : jsstring :=
  VITE_API_HOST (env w) ++ lit ":" ++ VITE_API_PORT (env w).
Definition AGENT_URL : jsstring :=
  VITE_AI_AGENT_HOST (env w) ++ lit ":" ++ VITE_AI_AGENT_PORT (env w).

(** calls "POST /users/token" *)
Definition loginUser (email password : jsstring) : Async.t S Json :=
  let formData :=
    URLSearchParams [ (lit "username", email); (lit "password", password) ] in
  response <- Async.fetch w {| url := API_URL ++ lit "/users/token";
                               method := lit "POST";
                               headers := [];
                               body := formData |} ;;
  if negb (ok response) then Async.throw (ErrorObj (lit "Login failed"))
  else Async.await (json response).

(** calls "POST /users" *)
Definition registerUser (email password : jsstring) : Async.t S Json :=
  response <- Async.fetch w
    {| url := API_URL ++ lit "/users";
       method := lit "POST";
       headers := [ (lit "Content-Type", lit "application/json") ];
       body := JsonText (JObject [ (lit "username", JString email);
                                   (lit "password", JString password) ]) |} ;;
  if negb (ok response) then Async.throw (ErrorObj (lit "Registration failed"))
  else Async.await (json response).

(** The [while (true)] loop over [reader.read()]: every chunk goes to
    [onChunk]; the loop is left when the stream is done, is rejected
    when a read fails, and waits when nothing more has arrived. *)
Fixpoint readLoop (onChunk : jsstring -> S -> S)
    (chunks : list jsstring) (tail : StreamTail) : Async.t S unit :=
  match chunks with
  | value :: rest =>
      Async.modify (onChunk value) ;; readLoop onChunk rest tail
  | [] =>
      match tail with
      | Closed => Async.ret tt
      | Errored e => Async.throw e
      | Pending => Async.wait
      end
  end.

(** The request [getAnalysisStream] hands to [fetch]. *)
Definition reportRequest (token projectName : jsstring) (file : File.t) : Request :=
  let formData :=
    FormData [ (lit "project_name", Text projectName);
               (lit "requirements_file", Blob file) ] in
  {| url := AGENT_URL ++ lit "/generate/report";
     method := lit "POST";
     headers := [ (lit "Authorization", lit "Bearer " ++ token);
                  (lit "Accept", lit "text/plain") ];
     body := formData |}.

(** calls the AI agent's analysis streaming endpoint ("POST /generate/report") *)
Definition getAnalysisStream (projectName : jsstring) (file : File.t)
    (onChunk : jsstring -> S -> S) : Async.t S unit :=
  let token := getItem w "authToken" in
  match token with
  | Some token =>
      if negb (truthy token)
      then Async.throw (ErrorObj (lit "Not authenticated. Please log in."))
      else
        response <- Async.fetch w (reportRequest token projectName file) ;;
        if negb (ok response) then
          errorText <- Async.await (text response) ;;
          Async.throw (ErrorObj (lit "Analysis request failed: " ++ errorText))
        else
          match stream response with
          | None => Async.throw (ErrorObj (lit "No response body from stream"))
          | Some reader => readLoop onChunk (chunks reader) (tail reader)
          end
  | None => Async.throw (ErrorObj (lit "Not authenticated. Please log in."))
  end.
End api.

End Api.

(** ** [pages/LoginPage.tsx] *)

Module LoginPage.

Record t : Type := mk {
  email : jsstring;
  password : jsstring;
  error : jsstring;
  isSubmitting : bool
}.

Definition initial : t :=
  {| email := []; password := []; error := []; isSubmitting := false |}.

Definition setEmail (v : jsstring) (s : t) : t :=
  {| email := v; password := password s; error := error s; isSubmitting := isSubmitting s |}.
Definition setPassword (v : jsstring) (s : t) : t :=
  {| email := email s; password := v; error := error s; isSubmitting := isSubmitting s |}.
Definition setError (v : jsstring) (s : t) : t :=
  {| email := email s; password := password s; error := v; isSubmitting := isSubmitting s |}.
Definition setIsSubmitting (b : bool) (s : t) : t :=
  {| email := email s; password := password s; error := error s; isSubmitting := b |}.

(** [data.access_token]: a [TypeError] on [null], the member of an
    object (the last one of that name wins in [JSON.parse]), and
    [undefined] on anything else. *)
Definition access_token (data : Json) : Completion (option Json) :=
  match data with
  | JNull => Rejected (ErrorObj (lit "Cannot read properties of null (reading 'access_token')"))
  | JObject fields =>
      Fulfilled (snd <$> last (filter (fun kv => kv.1 = lit "access_token") fields))
  | _ => Fulfilled None
  end.

Definition handleSubmit (w : World) : Async.t t unit := fun s =>
  (Async.modify (setError (lit "")) ;;
   match Validators.loginSchema
           {| Validators.username := email s; Validators.password := password s |} with
   | Validators.Failure issues =>
       match head issues with
       | Some firstError => Async.modify (setError (Validators.message firstError))
       | None => Async.throw (ErrorObj (lit "Cannot read properties of undefined (reading 'message')"))
       end
   | Validators.Success _ =>
       Async.modify (setIsSubmitting true) ;;
       Async.finally
         (Async.try_catch
            (data <- Api.loginUser w (email s) (password s) ;;
             token <- Async.await (access_token data) ;;
             Async.emit (SessionLogin token) ;;
             Async.emit (Navigate (lit "/")))
            (fun _ => Async.modify
               (setError (lit "Invalid username or password. Please try again."))))
         (setIsSubmitting false)
   end) s.

End LoginPage.

(** ** [pages/SignUpPage.tsx] *)

Module SignUpPage.

Record t : Type := mk {
  email : jsstring;
  password : jsstring;
  confirmPassword : jsstring;
  error : jsstring
}.

Definition initial : t :=
  {| email := []; password := []; confirmPassword := []; error := [] |}.

Definition setError (v : jsstring) (s : t) : t :=
  {| email := email s; password := password s;
     confirmPassword := confirmPassword s; error := v |}.

Definition handleSubmit (w : World) : Async.t t unit := fun s =>
  (if negb (str_eqb (password s) (confirmPassword s)) then
     Async.modify (setError (lit "Passwords do not match"))
   else
     Async.modify (setError (lit "")) ;;
     Async.try_catch
       (_ <- Api.registerUser w (email s) (password s) ;;
        (* Automatically navigate to sign-in after successful registration *)
        Async.emit (Navigate (lit "/login")))
       (fun _ => Async.modify
          (setError (lit "Failed to create account. Email may already be in use.")))) s.

End SignUpPage.

(** ** [pages/MainPage.tsx] *)

Module MainPage.

Record t : Type := mk {
  projectName : jsstring;
  file : option File.t;
  analysisResult : jsstring;
  isLoading : bool;
  error : option jsstring
}.

(** The state after the page is (re)loaded. *)
Definition initial : t :=
  {| projectName := []; file := None; analysisResult := [];
     isLoading := false; error := None |}.

Definition setProjectName (v : jsstring) (s : t) : t :=
  {| projectName := v; file := file s; analysisResult := analysisResult s;
     isLoading := isLoading s; error := error s |}.
Definition setFile (v : option File.t) (s : t) : t :=
  {| projectName := projectName s; file := v; analysisResult := analysisResult s;
     isLoading := isLoading s; error := error s |}.
Definition setAnalysisResult (v : jsstring) (s : t) : t :=
  {| projectName := projectName s; file := file s; analysisResult := v;
     isLoading := isLoading s; error := error s |}.
Definition setIsLoading (v : bool) (s : t) : t :=
  {| projectName := projectName s; file := file s; analysisResult := analysisResult s;
     isLoading := v; error := error s |}.
Definition setError (v : option jsstring) (s : t) : t :=
  {| projectName := projectName s; file := file s; analysisResult := analysisResult s;
     isLoading := isLoading s; error := v |}.

Definition handleFileChange (selectedFile : option File.t) (s : t) : t :=
  (* clear the previous analysis when a new file is selected *)
  setError None (setAnalysisResult [] (setFile selectedFile s)).

(** [(chunk) => { setAnalysisResult((prev) => prev + chunk); }] *)
Definition onChunk (chunk : jsstring) (s : t) : t :=
  setAnalysisResult (analysisResult s ++ chunk) s.

(** [err instanceof Error ? err.message : "An unknown error occurred."] *)
Definition errorText (err : Thrown) : jsstring :=
  match err with
  | ErrorObj message => message
  | NonError => lit "An unknown error occurred."
  end.

Definition handleSubmit (w : World) : Async.t t unit := fun s =>
  match file s with
  | Some f =>
      if negb (truthy (projectName s)) then
        Async.modify
          (setError (Some (lit "Please provide a project name and a requirements.txt file."))) s
      else
        (Async.modify (setIsLoading true) ;;
         Async.modify (setError None) ;;
         Async.modify (setAnalysisResult []) ;;
         Async.finally
           (Async.try_catch
              (Api.getAnalysisStream w (projectName s) f onChunk)
              (fun err => Async.modify (setError (Some (errorText err)))))
           (setIsLoading false)) s
  | None =>
      Async.modify
        (setError (Some (lit "Please provide a project name and a requirements.txt file."))) s
  end.

(** What the page shows of its state. *)
Record view : Type := {
  analyzeDisabled : bool;             (* [disabled={isLoading || !file || !projectName}] *)
  errorBanner : option jsstring;      (* [{error && ...}] *)
  waitingNotice : bool;               (* [{isLoading && !analysisResult && ...}] *)
  report : option (jsstring * bool)   (* [{analysisResult && ...}], with the
                                         "Generating Report..." badge *)
}.

Definition render (s : t) : view :=
  {| analyzeDisabled :=
       isLoading s || negb (bool_decide (is_Some (file s))) || negb (truthy (projectName s));
     errorBanner := if truthy_opt (error s) then error s else None;
     waitingNotice := isLoading s && negb (truthy (analysisResult s));
     report := if truthy (analysisResult s)
               then Some (analysisResult s, isLoading s) else None |}.

(** *** The page as a reactive system

    While a submission awaits the network the page keeps reacting to the
    user, so one run of [handleSubmit] is spread over several turns of
    the event loop: the part up to the [await], one turn per chunk, and
    the [catch]/[finally] part once the call has settled. *)

Definition submitAccepted (s : t) : bool :=
  bool_decide (is_Some (file s)) && truthy (projectName s).

(** [handleSubmit] up to its [await]. *)
Definition submitBegin (s : t) : t :=
  if submitAccepted s
  then setAnalysisResult [] (setError None (setIsLoading true s))
  else setError (Some (lit "Please provide a project name and a requirements.txt file.")) s.

(** [handleSubmit] after its [await]: [None] when the call returned,
    [Some err] when it threw. *)
Definition submitEnd (r : option Thrown) (s : t) : t :=
  setIsLoading false
    match r with
    | Some err => setError (Some (errorText err)) s
    | None => s
    end.

Inductive event : Type :=
| ProjectNameTyped (v : jsstring)
| FileSelected (f : option File.t)     (* [onChange] of the upload box *)
| AnalyzeClicked
| ChunkRead (chunk : jsstring)
| CallSettled (r : option Thrown).

Definition step (s : t) (e : event) : t :=
  match e with
  | ProjectNameTyped v => setProjectName v s
  | FileSelected f => handleFileChange f s
  | AnalyzeClicked => submitBegin s
  | ChunkRead chunk => onChunk chunk s
  | CallSettled r => submitEnd r s
  end.

Definition run (s : t) (evs : list event) : t := foldl step s evs.

(** The names the specification gives to what [render] tells apart. *)
Inductive phase : Type := Idle | Submitting | Streaming | Done | Failed.

Definition phase_of (s : t) : phase :=
  if isLoading s then
    if truthy (analysisResult s) then Streaming else Submitting
  else if truthy_opt (error s) then Failed
  else if truthy (analysisResult s) then Done
  else Idle.

End MainPage.

(** ** The upload box as a reactive component

    The events the rendered box can receive, each with its handler. *)

Module UploadBox.

Inductive event : Type :=
| InputChanged (files : list File.t)   (* [onChange] of the hidden input *)
| Dropped (files : list File.t)        (* [onDrop] *)
| DraggedOver                          (* [onDragOver] *)
| DragLeft                             (* [onDragLeave] *)
| RemoveClicked.                       (* the chip's "Remove file" button; the
                                          chip replaces the input, so there
                                          is no input element whose value
                                          [handleRemoveFile] could clear *)

Definition step (s : FileUpload.t) (e : event) : FileUpload.result :=
  match e with
  | InputChanged files => FileUpload.handleInputChange files s
  | Dropped files => FileUpload.handleDrop files s
  | DraggedOver => (FileUpload.handleDragOver s, [])
  | DragLeft => (FileUpload.handleDragLeave s, [])
  | RemoveClicked => FileUpload.handleRemoveFile s
  end.

(** The state after a sequence of events, with all the [onChange] calls
    made on the way. *)
Fixpoint run (s : FileUpload.t) (evs : list event) : FileUpload.result :=
  match evs with
  | [] => (s, [])
  | e :: evs' =>
      let '(s1, calls1) := step s e in
      let '(s2, calls2) := run s1 evs' in
      (s2, calls1 ++ calls2)
  end.

End UploadBox.

(** ** The analysis page with its upload box

    [MainPage] renders [<FileUpload onChange={handleFileChange} />]: the
    box keeps its own state and reports to the page through [onChange]. *)

Module AnalysisScreen.

Record t : Type := mk { box : FileUpload.t; page : MainPage.t }.

Definition initial : t := {| box := FileUpload.initial; page := MainPage.initial |}.

Inductive event : Type :=
| OnBox (e : UploadBox.event)
| ProjectNameTyped (v : jsstring)
| AnalyzeClicked
| ChunkRead (chunk : jsstring)
| CallSettled (r : option Thrown).

Definition step (a : t) (e : event) : t :=
  match e with
  | OnBox e =>
      let '(box', calls) := UploadBox.step (box a) e in
      {| box := box';
         page := FileUpload.notify (Some MainPage.handleFileChange) calls (page a) |}
  | ProjectNameTyped v =>
      {| box := box a; page := MainPage.step (page a) (MainPage.ProjectNameTyped v) |}
  | AnalyzeClicked =>
      {| box := box a; page := MainPage.step (page a) MainPage.AnalyzeClicked |}
  | ChunkRead chunk =>
      {| box := box a; page := MainPage.step (page a) (MainPage.ChunkRead chunk) |}
  | CallSettled r =>
      {| box := box a; page := MainPage.step (page a) (MainPage.CallSettled r) |}
  end.

Definition run (a : t) (evs : list event) : t := foldl step a evs.

End AnalysisScreen.

(** ** [main.tsx] and [components/protected-route.tsx] *)

Module Router.

Inductive Element : Type :=
| LoginPageElement
| SignUpPageElement
| ProtectedRouteElement
| MainPageElement.

#[local] Unset Elimination Schemes.
Inductive RouteObject : Type :=
| Route (path : jsstring) (element : Element) (children : list RouteObject).
#[local] Set Elimination Schemes.

(** Define the application routes *)
Definition router : list RouteObject :=
  [ Route (lit "/login") LoginPageElement [];
    Route (lit "/register") SignUpPageElement [];
    Route (lit "/") ProtectedRouteElement     (* This protects all child routes *)
      [ Route (lit "/") MainPageElement [] ] ].

(** What [ProtectedRoute] returns. *)
Inductive Rendered : Type :=
| NavigateTo (to : jsstring) (replace : bool)
| Outlet.

Definition ProtectedRoute (isAuthenticated : bool) : Rendered :=
  if negb isAuthenticated then NavigateTo (lit "/login") true
  else Outlet.   (* Render the child route (MainPage) *)

(** The chains of nested routes of a route tree, outermost element
    first: every route together with the routes it is nested in.  Which
    chain a location selects is the router's business and is not
    modelled. *)
Fixpoint chains (r : RouteObject) : list (list Element) :=
  match r with
  | Route _ element children =>
      [element] ::
      map (cons element)
        ((fix below (rs : list RouteObject) : list (list Element) :=
            match rs with
            | [] => []
            | r' :: rs' => chains r' ++ below rs'
            end) children)
  end.

Definition allChains (routes : list RouteObject) : list (list Element) :=
  concat (map chains routes).

(** What a chain shows: a page, a redirect, or nothing.  A page element
    shows itself; [ProtectedRoute] shows its outlet, the rest of the
    chain, or redirects. *)
Inductive Shown : Type :=
| ShowsLogin
| ShowsSignUp
| ShowsMain
| Redirects (to : jsstring)
| ShowsNothing.

Fixpoint display (isAuthenticated : bool) (elements : list Element) : Shown :=
  match elements with
  | [] => ShowsNothing
  | LoginPageElement :: _ => ShowsLogin
  | SignUpPageElement :: _ => ShowsSignUp
  | MainPageElement :: _ => ShowsMain
  | ProtectedRouteElement :: outlet =>
      match ProtectedRoute isAuthenticated with
      | NavigateTo to _ => Redirects to
      | Outlet => display isAuthenticated outlet
      end
  end.

End Router.

(** * Vocabulary of the statements *)

(** The three reasons the upload box can show. *)
Definition MIME_REASON : jsstring :=
  lit "Only text files are allowed (MIME type: text/plain)".
Definition EXTENSION_REASON : jsstring := lit "Only .txt files are allowed".
Definition SIZE_REASON : jsstring := lit "File size must not exceed 1 MB".

(** The upload box after a rejection with [reason] and after accepting
    [f], each with the one call of [onChange] that goes with it. *)
Definition rejected (reason : jsstring) (s : FileUpload.t) : FileUpload.result :=
  ({| FileUpload.file := None; FileUpload.error := Some reason;
      FileUpload.isDragging := FileUpload.isDragging s |}, [None]).
Definition accepted (f : File.t) (s : FileUpload.t) : FileUpload.result :=
  ({| FileUpload.file := Some f; FileUpload.error := None;
      FileUpload.isDragging := FileUpload.isDragging s |}, [Some f]).

(** Sample files. *)
Definition requirements_txt (size : N) : File.t :=
  {| File.name := lit "requirements.txt"; File.type := lit "text/plain"; File.size := size |}.
Definition report_pdf : File.t :=
  {| File.name := lit "report.pdf"; File.type := lit "application/pdf"; File.size := 2048 |}.
Definition notes_md : File.t :=
  {| File.name := lit "notes.md"; File.type := lit "text/plain"; File.size := 2048 |}.

(** The message of the missing-session failure. *)
Definition NOT_AUTHENTICATED : jsstring := lit "Not authenticated. Please log in.".

(** One call of [getAnalysisStream], observed through a callback that
    records its arguments: the fragments handed to the callback in order,
    the calls made, and how the call ends. *)
Definition observe (w : World) (projectName : jsstring) (f : File.t)
    : list jsstring * list Effect * Completion unit :=
  Api.getAnalysisStream w projectName f (fun chunk seen => seen ++ [chunk]) [].

(** How a stream's end shows in the promise of the read loop. *)
Definition ending (tail : StreamTail) : Completion unit :=
  match tail with
  | Closed => Fulfilled tt
  | Errored e => Rejected e
  | Pending => Unsettled
  end.

(** The turn of the event loop in which [handleSubmit] resumes after its
    [await], if the call has settled. *)
Definition settling (c : Completion unit) : list MainPage.event :=
  match c with
  | Fulfilled _ => [MainPage.CallSettled None]
  | Rejected e => [MainPage.CallSettled (Some e)]
  | Unsettled => []
  end.

(** The turns of the event loop that make up one click on "Analyze". *)
Definition turnsOfSubmit (w : World) (s : MainPage.t) : list MainPage.event :=
  match MainPage.file s with
  | Some f =>
      if MainPage.submitAccepted s then
        let '(fragments, _, c) := observe w (MainPage.projectName s) f in
        MainPage.AnalyzeClicked :: (MainPage.ChunkRead <$> fragments) ++ settling c
      else [MainPage.AnalyzeClicked]
  | None => [MainPage.AnalyzeClicked]
  end.

(** The resets of the transcript: every call of [onChange] by the upload
    box (with a file, or with [null] after a rejection or a removal), and
    a click on "Analyze" that starts an analysis. *)
Definition resets (s : MainPage.t) (e : MainPage.event) : bool :=
  match e with
  | MainPage.FileSelected _ => true
  | MainPage.AnalyzeClicked => MainPage.submitAccepted s
  | _ => false
  end.

(** The fragments received since the last reset, after the events [evs]
    from state [s], given those received [before]. *)
Fixpoint received (s : MainPage.t) (before : list jsstring)
    (evs : list MainPage.event) : list jsstring :=
  match evs with
  | [] => before
  | e :: evs' =>
      received (MainPage.step s e)
        (if resets s e then []
         else match e with
              | MainPage.ChunkRead chunk => before ++ [chunk]
              | _ => before
              end)
        evs'
  end.

(** Sample worlds: the storage holds [token], if any, and the server gives
    every request the same [answer]. *)
Definition someEnv : ImportMetaEnv :=
  {| VITE_API_HOST := lit "http://localhost"; VITE_API_PORT := lit "8000";
     VITE_AI_AGENT_HOST := lit "http://localhost"; VITE_AI_AGENT_PORT := lit "8001" |}.

Definition worldWith (token : option jsstring) (answer : Completion Response) : World :=
  {| env := someEnv;
     localStorage := match token with
                     | Some tok => {[ "authToken" := tok ]}
                     | None => ∅
                     end;
     fetch := fun _ => answer |}.

(** A successful response whose body is the text stream [rd]. *)
Definition streamed (rd : TextStream) : Response :=
  {| ok := true; text := Unsettled; json := Unsettled; stream := Some rd |}.

(** A page ready to submit [requirements.txt] for project "demo". *)
Definition readyPage : MainPage.t :=
  {| MainPage.projectName := lit "demo";
     MainPage.file := Some (requirements_txt 24);
     MainPage.analysisResult := [];
     MainPage.isLoading := false;
     MainPage.error := None |}.

(** [<FileUpload onChange={handleFileChange} />]: the page receives the
    calls the upload box makes. *)
Definition intoPage (r : FileUpload.result) (page : MainPage.t) : MainPage.t :=
  FileUpload.notify (Some MainPage.handleFileChange) r.2 page.

(** A page in the middle of a stream: one fragment has arrived and the
    call has not settled. *)
Definition midStream : MainPage.t :=
  MainPage.run readyPage [MainPage.AnalyzeClicked; MainPage.ChunkRead (lit "## Report")].

(** The fragments and the failure of the specification's scenario. *)
Definition reportLine : jsstring := lit "## Report" ++ [10%N].
Definition boomStream : TextStream :=
  {| chunks := [reportLine; lit "Line 2"]; tail := Errored (ErrorObj (lit "boom")) |}.

(** Messages of the form validators. *)
Definition USERNAME_TOO_SHORT : jsstring := lit "Username must be at least 4 characters.".
Definition USERNAME_TOO_LONG : jsstring := lit "Username must not exceed 100 characters.".
Definition PASSWORD_TOO_SHORT : jsstring := lit "Password must be at least 4 characters.".
Definition PASSWORDS_DIFFER : jsstring := lit "Passwords do not match".

(** "No network call": no [fetch] among the calls of a handler. *)
Definition offline {S A : Type} (r : S * list Effect * Completion A) : Prop :=
  requests r.1.2 = [].

(** Sample forms. *)
Definition shortLogin : LoginPage.t :=
  {| LoginPage.email := lit "abc"; LoginPage.password := lit "password123";
     LoginPage.error := []; LoginPage.isSubmitting := false |}.

(** The identifier ["ab  "]: four code units, two after trimming. *)
Definition paddedLogin : LoginPage.t :=
  {| LoginPage.email := lit "ab  "; LoginPage.password := lit "password123";
     LoginPage.error := []; LoginPage.isSubmitting := false |}.

Definition mismatchedSignUp : SignUpPage.t :=
  {| SignUpPage.email := lit "validuser@test.com";
     SignUpPage.password := lit "validpass";
     SignUpPage.confirmPassword := lit "differentpass";
     SignUpPage.error := [] |}.

(** The registration form with the identifier left empty. *)
Definition emptyEmailSignUp : SignUpPage.t :=
  {| SignUpPage.email := [];
     SignUpPage.password := lit "password123";
     SignUpPage.confirmPassword := lit "password123";
     SignUpPage.error := [] |}.

(** A world without a session whose server cannot be reached. *)
Definition unreachable : World := worldWith None (Rejected (ErrorObj (lit "Failed to fetch"))).

(** The page after a run that delivered [fragments] and then threw [err]. *)
Definition afterFailure (s : MainPage.t) (fragments : list jsstring) (err : Thrown)
    : MainPage.t :=
  {| MainPage.projectName := MainPage.projectName s;
     MainPage.file := MainPage.file s;
     MainPage.analysisResult := concat fragments;
     MainPage.isLoading := false;
     MainPage.error := Some (MainPage.errorText err) |}.

(** What the login form hands to [loginSchema.safeParse]. *)
Definition loginInput (s : LoginPage.t) : Validators.LoginInput :=
  {| Validators.username := LoginPage.email s;
     Validators.password := LoginPage.password s |}.

(** A file that passes the three rules of the upload box. *)
Definition valid (f : File.t) : Prop :=
  File.type f = lit "text/plain" /\
  lit ".txt" `suffix_of` File.name f /\
  (File.size f <= FileUpload.MAX_FILE_SIZE)%N.

(** The upload box holds a file only if the file is valid, and then shows
    no reason. *)
Definition consistent (s : FileUpload.t) : Prop :=
  match FileUpload.file s with
  | Some f => valid f /\ FileUpload.error s = None
  | None => True
  end.

(** The page and its upload box agree on the selected file. *)
Definition inSync (a : AnalysisScreen.t) : Prop :=
  MainPage.file (AnalysisScreen.page a) = FileUpload.file (AnalysisScreen.box a).

(** The message of the page when "Analyze" lacks a file or a name. *)
Definition NOTHING_TO_ANALYZE : jsstring :=
  lit "Please provide a project name and a requirements.txt file.".

(** Where an accepted click on "Analyze" leaves the page, in terms of
    what the call delivered and how it ended. *)
Definition afterCall (s : MainPage.t) (fragments : list jsstring) (c : Completion unit)
    : MainPage.t :=
  {| MainPage.projectName := MainPage.projectName s;
     MainPage.file := MainPage.file s;
     MainPage.analysisResult := concat fragments;
     MainPage.isLoading := match c with Unsettled => true | _ => false end;
     MainPage.error := match c with
                       | Rejected e => Some (MainPage.errorText e)
                       | _ => None
                       end |}.

(** The fixed messages of the two forms after a failed call. *)
Definition LOGIN_FAILED : jsstring := lit "Invalid username or password. Please try again.".
Definition SIGNUP_FAILED : jsstring :=
  lit "Failed to create account. Email may already be in use.".

(** The login form passes its local validation. *)
Definition loginReady (s : LoginPage.t) : Prop :=
  4 <= length (LoginPage.email s) <= 100 /\ 4 <= length (LoginPage.password s).

(** The request of the login form, with the fields as typed. *)
Definition tokenRequest (w : World) (s : LoginPage.t) : Request :=
  {| url := Api.API_URL w ++ lit "/users/token";
     method := lit "POST";
     headers := [];
     body := URLSearchParams [ (lit "username", LoginPage.email s);
                               (lit "password", LoginPage.password s) ] |}.

(** The login form at rest with [err] shown, and while it waits. *)
Definition loginSettled (s : LoginPage.t) (err : jsstring) : LoginPage.t :=
  {| LoginPage.email := LoginPage.email s; LoginPage.password := LoginPage.password s;
     LoginPage.error := err; LoginPage.isSubmitting := false |}.
Definition loginWaiting (s : LoginPage.t) : LoginPage.t :=
  {| LoginPage.email := LoginPage.email s; LoginPage.password := LoginPage.password s;
     LoginPage.error := []; LoginPage.isSubmitting := true |}.

(** The one message a login form with these fields shows when its local
    validation fails. *)
Definition firstLoginError (u p : jsstring) : jsstring :=
  if (length u <? 4)%nat then USERNAME_TOO_SHORT
  else if (100 <? length u)%nat then USERNAME_TOO_LONG
  else PASSWORD_TOO_SHORT.

(** The request of the registration form. *)
Definition registrationRequest (w : World) (s : SignUpPage.t) : Request :=
  {| url := Api.API_URL w ++ lit "/users";
     method := lit "POST";
     headers := [ (lit "Content-Type", lit "application/json") ];
     body := JsonText (JObject [ (lit "username", JString (SignUpPage.email s));
                                 (lit "password", JString (SignUpPage.password s)) ]) |}.


(** More samples: a stream that has closed after two chunks, a world with
    a session that serves it, and what the user does to get the page
    ready on a freshly loaded screen. *)
Definition doneStream : TextStream :=
  {| chunks := [reportLine; lit "Line 2"]; tail := Closed |}.

Definition servingWorld : World :=
  worldWith (Some (lit "test-token")) (Fulfilled (streamed doneStream)).

Definition gettingReady : list AnalysisScreen.event :=
  [ AnalysisScreen.OnBox (UploadBox.InputChanged [requirements_txt 24]);
    AnalysisScreen.ProjectNameTyped (lit "demo") ].

(** The events on which the upload box calls [onChange]: a file offered
    through the dialog or by dropping it, whether the box then accepts or
    rejects it, and the removal of the selected file. *)
Definition boxReports (e : UploadBox.event) : bool :=
  match e with
  | UploadBox.InputChanged (_ :: _) => true
  | UploadBox.Dropped (_ :: _) => true
  | UploadBox.RemoveClicked => true
  | _ => false
  end.

(** The events of the screen that reset the transcript: those on which
    the box calls [onChange], and a click on "Analyze" that starts an
    analysis. *)
Definition screenResets (a : AnalysisScreen.t) (e : AnalysisScreen.event) : bool :=
  match e with
  | AnalysisScreen.OnBox e => boxReports e
  | AnalysisScreen.AnalyzeClicked => MainPage.submitAccepted (AnalysisScreen.page a)
  | _ => false
  end.

(** The fragments received since the last reset, after the events [evs]
    on the screen [a], given those received [before]. *)
Fixpoint screenReceived (a : AnalysisScreen.t) (before : list jsstring)
    (evs : list AnalysisScreen.event) : list jsstring :=
  match evs with
  | [] => before
  | e :: evs' =>
      screenReceived (AnalysisScreen.step a e)
        (if screenResets a e then []
         else match e with
              | AnalysisScreen.ChunkRead chunk => before ++ [chunk]
              | _ => before
              end)
        evs'
  end.

(** A screen on which an analysis has run to its end: the file picked,
    the name typed, "Analyze" clicked, two chunks read, the call returned. *)
Definition finishedScreen : AnalysisScreen.t :=
  AnalysisScreen.run AnalysisScreen.initial
    (gettingReady ++
     [ AnalysisScreen.AnalyzeClicked;
       AnalysisScreen.ChunkRead reportLine;
       AnalysisScreen.ChunkRead (lit "Line 2");
       AnalysisScreen.CallSettled None ]).

(** The member [key] of a parsed JSON object, [None] standing for
    [undefined]; of several members of that name the last one counts. *)
Definition memberOf (key : jsstring) (fields : list (jsstring * Json)) : option Json :=
  snd <$> last (filter (fun kv => kv.1 = key) fields).

(** A login form filled in correctly, and a world whose token endpoint
    answers with the token ["tok-1"]. *)
Definition validLogin : LoginPage.t :=
  {| LoginPage.email := lit "abcd"; LoginPage.password := lit "password123";
     LoginPage.error := []; LoginPage.isSubmitting := false |}.

Definition tokenAnswer : Response :=
  {| ok := true; text := Unsettled;
     json := Fulfilled (JObject [ (lit "access_token", JString (lit "tok-1"));
                                  (lit "token_type", JString (lit "bearer")) ]);
     stream := None |}.

Definition tokenServer : World := worldWith None (Fulfilled tokenAnswer).

(** * Properties *)

(** ** JavaScript strings *)

Section js_facts.
Implicit Types s t search : jsstring.

Lemma str_eqb_true s t : str_eqb s t = true <-> s = t.
Proof. unfold str_eqb. by rewrite bool_decide_eq_true. Qed.

Lemma str_eqb_false s t : str_eqb s t = false <-> s <> t.
Proof. unfold str_eqb. by rewrite bool_decide_eq_false. Qed.

(** [endsWith] is the suffix relation on code-unit sequences. *)
Lemma endsWith_suffix s search :
  endsWith s search = true <-> search `suffix_of` s.
Proof.
  unfold endsWith. split.
  - destruct (Nat.leb_spec (length search) (length s)) as [Hle|]; [|done].
    rewrite bool_decide_eq_true. intros Hdrop.
    exists (take (length s - length search) s).
    by rewrite <- Hdrop at 2; rewrite take_drop.
  - intros [k ->]. rewrite length_app.
    destruct (Nat.leb_spec (length search) (length k + length search)); [|lia].
    rewrite bool_decide_eq_true.
    replace (length k + length search - length search) with (length k) by lia.
    by rewrite drop_app_length.
Qed.

Lemma endsWith_not_suffix s search :
  endsWith s search = false <-> ~ search `suffix_of` s.
Proof. rewrite <- endsWith_suffix. by destruct (endsWith s search). Qed.


End js_facts.

(** ** The upload box *)

Section file_upload.
Import FileUpload.
Implicit Types (f : File.t) (s : FileUpload.t).

Lemma handleFileChange_mime f s :
  File.type f <> lit "text/plain" ->
  handleFileChange (Some f) s = rejected MIME_REASON s.
Proof.
  intros Hty%str_eqb_false. unfold handleFileChange. by rewrite Hty.
Qed.

Lemma handleFileChange_extension f s :
  File.type f = lit "text/plain" ->
  ~ lit ".txt" `suffix_of` File.name f ->
  handleFileChange (Some f) s = rejected EXTENSION_REASON s.
Proof.
  intros Hty%str_eqb_true Hext%endsWith_not_suffix.
  unfold handleFileChange. by rewrite Hty, Hext.
Qed.

Lemma handleFileChange_size f s :
  File.type f = lit "text/plain" ->
  lit ".txt" `suffix_of` File.name f ->
  (MAX_FILE_SIZE < File.size f)%N ->
  handleFileChange (Some f) s = rejected SIZE_REASON s.
Proof.
  intros Hty%str_eqb_true Hext%endsWith_suffix Hsz%N.ltb_lt.
  unfold handleFileChange. by rewrite Hty, Hext, Hsz.
Qed.

Lemma handleFileChange_accept f s :
  File.type f = lit "text/plain" ->
  lit ".txt" `suffix_of` File.name f ->
  (File.size f <= MAX_FILE_SIZE)%N ->
  handleFileChange (Some f) s = accepted f s.
Proof.
  intros Hty%str_eqb_true Hext%endsWith_suffix Hsz%N.ltb_ge.
  unfold handleFileChange. by rewrite Hty, Hext, Hsz.
Qed.

(** C4. The validator applies three rules in the order MIME type,
    file-name extension, byte size, and stops at the first that fails:
    a file whose MIME type is not [text/plain] is rejected with the
    MIME-type reason whatever its name and size; with the right MIME type
    but a name that does not end in [.txt] it is rejected with the
    extension reason whatever its size; with both right but too many
    bytes it is rejected with the size reason; a file that passes the
    three rules is accepted.  Every rejection leaves no file selected,
    shows that one reason and calls [onChange] once, with [null]. *)
Theorem C4_rules_in_order f s :
  (File.type f <> lit "text/plain" ->
     handleFileChange (Some f) s = rejected MIME_REASON s) /\
  (File.type f = lit "text/plain" ->
   ~ lit ".txt" `suffix_of` File.name f ->
     handleFileChange (Some f) s = rejected EXTENSION_REASON s) /\
  (File.type f = lit "text/plain" ->
   lit ".txt" `suffix_of` File.name f ->
   (MAX_FILE_SIZE < File.size f)%N ->
     handleFileChange (Some f) s = rejected SIZE_REASON s) /\
  (File.type f = lit "text/plain" ->
   lit ".txt" `suffix_of` File.name f ->
   (File.size f <= MAX_FILE_SIZE)%N ->
     handleFileChange (Some f) s = accepted f s) /\
  (forall reason, file (rejected reason s).1 = None /\ (rejected reason s).2 = [None]).
Proof.
  split_and!;
    auto using handleFileChange_mime, handleFileChange_extension,
               handleFileChange_size, handleFileChange_accept.
Qed.

(** C4 at a PDF, at a text file without the suffix, and at a text file
    that is too large. *)
Lemma C4_rules_in_order_witness :
  handleFileChange (Some report_pdf) initial = rejected MIME_REASON initial /\
  handleFileChange (Some notes_md) initial = rejected EXTENSION_REASON initial /\
  handleFileChange (Some (requirements_txt 2000000)) initial
    = rejected SIZE_REASON initial.
Proof.
  split_and!.
  - apply (proj1 (C4_rules_in_order report_pdf initial)).
    vm_compute. discriminate.
  - apply (proj1 (proj2 (C4_rules_in_order notes_md initial))).
    + reflexivity.
    + apply endsWith_not_suffix. reflexivity.
  - apply (proj1 (proj2 (proj2 (C4_rules_in_order (requirements_txt 2000000) initial)))).
    + reflexivity.
    + apply endsWith_suffix. reflexivity.
    + reflexivity.
Defined.

(** C5. For a file with the right MIME type and extension the size rule
    accepts exactly the sizes up to the maximum of 1048576 bytes: a
    larger file is rejected with the size reason, a file of exactly the
    maximum is accepted, and so is one of the maximum minus one. *)
Theorem C5_size_rule f s :
  File.type f = lit "text/plain" ->
  lit ".txt" `suffix_of` File.name f ->
  MAX_FILE_SIZE = 1048576%N /\
  (handleFileChange (Some f) s = accepted f s <-> (File.size f <= MAX_FILE_SIZE)%N) /\
  (handleFileChange (Some f) s = rejected SIZE_REASON s
     <-> (MAX_FILE_SIZE < File.size f)%N) /\
  (File.size f = MAX_FILE_SIZE -> handleFileChange (Some f) s = accepted f s) /\
  (File.size f = (MAX_FILE_SIZE - 1)%N -> handleFileChange (Some f) s = accepted f s).
Proof.
  intros Hty Hext.
  assert (Hno : rejected SIZE_REASON s <> accepted f s) by (intros [=]).
  split_and!.
  - reflexivity.
  - split; [|by apply handleFileChange_accept].
    intros Hacc. destruct (N.le_gt_cases (File.size f) MAX_FILE_SIZE) as [|Hgt]; [done|].
    rewrite (handleFileChange_size f s Hty Hext Hgt) in Hacc. by destruct Hno.
  - split; [|by apply handleFileChange_size].
    intros Hrej. destruct (N.le_gt_cases (File.size f) MAX_FILE_SIZE) as [Hle|]; [|done].
    rewrite (handleFileChange_accept f s Hty Hext Hle) in Hrej. by destruct Hno.
  - intros Heq. apply handleFileChange_accept; [done..|]. rewrite Heq. reflexivity.
  - intros Heq. apply handleFileChange_accept; [done..|]. rewrite Heq. by vm_compute.
Qed.

(** C5 at a [requirements.txt] of exactly 1 MB. *)
Lemma C5_size_rule_witness :
  handleFileChange (Some (requirements_txt 1048576)) initial
    = accepted (requirements_txt 1048576) initial.
Proof.
  refine (proj1 (proj2 (proj2 (proj2
    (C5_size_rule (requirements_txt 1048576) initial _ _)))) _).
  - reflexivity.
  - apply endsWith_suffix. reflexivity.
  - reflexivity.
Defined.

(** C10. A [null] candidate (the picker was closed without a choice)
    changes nothing: [handleFileChange] and [handleInputChange] return
    the state they were given, so the selected file and the reason shown
    stay, and [onChange] is not called.  A candidate that is a file is
    validated from the first rule on, whatever file or reason the
    component held before. *)
Theorem C10_null_candidate_changes_nothing s :
  handleFileChange None s = (s, []) /\
  handleInputChange [] s = (s, []) /\
  file (handleInputChange [] s).1 = file s /\
  render (handleInputChange [] s).1 = render s /\
  (forall (P : Type) (onChange : option (option File.t -> P -> P)) (p : P),
     notify onChange (handleInputChange [] s).2 p = p) /\
  (forall f before reason,
     handleFileChange (Some f)
       {| file := before; error := reason; isDragging := isDragging s |}
     = handleFileChange (Some f) s).
Proof.
  split_and!; try reflexivity.
  intros P [cb|] p; reflexivity.
Qed.
End file_upload.

(** ** The streaming call *)

Section streaming.
Context (w : World).
Implicit Types (projectName token : jsstring) (f : File.t).

Lemma foldl_snoc (seen chunks : list jsstring) :
  foldl (fun seen chunk => seen ++ [chunk]) seen chunks = seen ++ chunks.
Proof.
  revert seen. induction chunks as [|c chunks IH]; intros seen; simpl.
  - by rewrite app_nil_r.
  - by rewrite IH, <- app_assoc.
Qed.

(** The read loop hands every chunk to the callback, once, in order,
    and then ends as the stream does. *)
Lemma readLoop_spec {S} (onChunk : jsstring -> S -> S) chunks tail (s : S) :
  Api.readLoop onChunk chunks tail s
  = (foldl (fun s chunk => onChunk chunk s) s chunks, [], ending tail).
Proof.
  revert s. induction chunks as [|c chunks IH]; intros s; simpl.
  - by destruct tail.
  - unfold Async.bind, Async.modify. by rewrite IH.
Qed.

(** Without a truthy token the call is rejected on the spot. *)
Lemma getAnalysisStream_no_token {S} projectName f (onChunk : jsstring -> S -> S) s :
  truthy_opt (getItem w "authToken") = false ->
  Api.getAnalysisStream w projectName f onChunk s
  = (s, [], Rejected (ErrorObj NOT_AUTHENTICATED)).
Proof.
  unfold Api.getAnalysisStream. destruct (getItem w "authToken") as [tok|]; simpl.
  - by intros ->.
  - done.
Qed.

(** With a token and a successful response that has a body, the call
    makes the one request and runs the read loop. *)
Lemma getAnalysisStream_streams {S} projectName f (onChunk : jsstring -> S -> S) s
    token response rd :
  getItem w "authToken" = Some token ->
  truthy token = true ->
  fetch w (Api.reportRequest w token projectName f) = Fulfilled response ->
  ok response = true ->
  stream response = Some rd ->
  Api.getAnalysisStream w projectName f onChunk s
  = (foldl (fun s chunk => onChunk chunk s) s (chunks rd),
     [Fetch (Api.reportRequest w token projectName f)],
     ending (tail rd)).
Proof.
  intros Htok Htruthy Hfetch Hok Hbody.
  unfold Api.getAnalysisStream. rewrite Htok, Htruthy. simpl.
  unfold Async.bind, Async.fetch. rewrite Hfetch, Hok, Hbody. simpl.
  by rewrite readLoop_spec.
Qed.

(** The call treats its callback as a black box: the state it returns is
    the callback folded over the fragments it delivers, and the calls it
    makes and its completion do not depend on the callback. *)
Lemma getAnalysisStream_observe {S} projectName f (onChunk : jsstring -> S -> S) s :
  Api.getAnalysisStream w projectName f onChunk s
  = (foldl (fun s chunk => onChunk chunk s) s (observe w projectName f).1.1,
     (observe w projectName f).1.2,
     (observe w projectName f).2).
Proof.
  unfold observe, Api.getAnalysisStream.
  destruct (getItem w "authToken") as [tok|]; [|done].
  destruct (truthy tok); [|done]. simpl.
  unfold Async.bind, Async.fetch.
  destruct (fetch w _) as [response| |]; [|done..].
  destruct (ok response); simpl.
  - destruct (stream response) as [rd|]; [|done].
    rewrite !readLoop_spec. simpl. by rewrite foldl_snoc.
  - unfold Async.await. by destruct (text response).
Qed.
End streaming.

Section token_gate.
Context {S : Type} (w : World).
Implicit Types (projectName token : jsstring) (f : File.t) (s : S).

Lemma getAnalysisStream_calls projectName f (onChunk : jsstring -> S -> S) s token :
  getItem w "authToken" = Some token ->
  truthy token = true ->
  (Api.getAnalysisStream w projectName f onChunk s).1.2
  = [Fetch (Api.reportRequest w token projectName f)].
Proof.
  intros Htok Htruthy. unfold Api.getAnalysisStream. rewrite Htok, Htruthy. simpl.
  unfold Async.bind, Async.fetch.
  destruct (fetch w _) as [response| |]; [|done..].
  destruct (ok response); simpl.
  - destruct (stream response) as [rd|]; [|done]. by rewrite readLoop_spec.
  - unfold Async.await. by destruct (text response).
Qed.

(** C3. Without a session token in storage ([getItem] gives [null], or
    the empty string, which [!token] treats alike) the stream-analysis
    call is rejected at once with the missing-session error and calls
    nothing, [fetch] included.  With a token it makes exactly one
    request, a POST whose [Authorization] header is ["Bearer "] followed
    by that token. *)
Theorem C3_token_gate projectName f (onChunk : jsstring -> S -> S) s :
  (truthy_opt (getItem w "authToken") = false ->
     Api.getAnalysisStream w projectName f onChunk s
     = (s, [], Rejected (ErrorObj NOT_AUTHENTICATED))) /\
  (forall token,
     getItem w "authToken" = Some token ->
     truthy token = true ->
     exists r,
       (Api.getAnalysisStream w projectName f onChunk s).1.2 = [Fetch r] /\
       method r = lit "POST" /\
       (lit "Authorization", lit "Bearer " ++ token) ∈ headers r).
Proof.
  split.
  - apply getAnalysisStream_no_token.
  - intros token Htok Htruthy.
    exists (Api.reportRequest w token projectName f). split_and!.
    + by apply getAnalysisStream_calls.
    + reflexivity.
    + simpl. left.
Qed.
End token_gate.

(** C3 with an empty storage, and with the token ["test-token"] stored. *)
Lemma C3_token_gate_witness :
  Api.getAnalysisStream (worldWith None Unsettled) (lit "demo") (requirements_txt 24)
    MainPage.onChunk readyPage
  = (readyPage, [], Rejected (ErrorObj NOT_AUTHENTICATED)) /\
  exists r,
    (Api.getAnalysisStream (worldWith (Some (lit "test-token")) Unsettled) (lit "demo")
       (requirements_txt 24) MainPage.onChunk readyPage).1.2 = [Fetch r] /\
    method r = lit "POST" /\
    (lit "Authorization", lit "Bearer test-token") ∈ headers r.
Proof.
  split.
  - apply (proj1 (C3_token_gate (worldWith None Unsettled) (lit "demo")
                    (requirements_txt 24) MainPage.onChunk readyPage)).
    reflexivity.
  - apply (proj2 (C3_token_gate (worldWith (Some (lit "test-token")) Unsettled) (lit "demo")
                    (requirements_txt 24) MainPage.onChunk readyPage) (lit "test-token")).
    + apply lookup_singleton_eq.
    + reflexivity.
Defined.

(** ** The analysis page *)

Section main_page.
Import MainPage.
Implicit Types (s : MainPage.t) (evs : list event) (f : File.t).

Lemma run_app s evs evs' : run s (evs ++ evs') = run (run s evs) evs'.
Proof. apply foldl_app. Qed.

Lemma run_chunks s (fragments : list jsstring) :
  run s (ChunkRead <$> fragments) = foldl (fun s chunk => onChunk chunk s) s fragments.
Proof.
  revert s. induction fragments as [|c fragments IH]; intros s; [done|].
  simpl. apply IH.
Qed.

Lemma submitAccepted_true s :
  submitAccepted s = true <-> (exists f, file s = Some f) /\ truthy (projectName s) = true.
Proof.
  unfold submitAccepted. rewrite andb_true_iff, bool_decide_eq_true. done.
Qed.

(** Feeding fragments to [onChunk] appends their concatenation. *)
Lemma foldl_onChunk s (fragments : list jsstring) :
  foldl (fun s chunk => onChunk chunk s) s fragments
  = setAnalysisResult (analysisResult s ++ concat fragments) s.
Proof.
  revert s. induction fragments as [|c fragments IH]; intros s; simpl.
  - rewrite app_nil_r. by destruct s.
  - rewrite IH. unfold onChunk, setAnalysisResult. simpl. by rewrite <- app_assoc.
Qed.

(** One click on "Analyze", run to where the network lets it get, is the
    sequence of its turns. *)
Lemma handleSubmit_turns w s :
  (handleSubmit w s).1.1 = run s (turnsOfSubmit w s).
Proof.
  unfold handleSubmit, turnsOfSubmit, submitAccepted.
  destruct (file s) as [f|] eqn:Hfile; [|by unfold run, step, submitBegin, submitAccepted; simpl; rewrite Hfile].
  destruct (truthy (projectName s)) eqn:Hname; simpl.
  2: { unfold run, submitBegin, submitAccepted. simpl. by rewrite Hfile, Hname. }
  unfold Async.bind, Async.modify, Async.finally, Async.try_catch. simpl.
  rewrite getAnalysisStream_observe.
  destruct (observe w (projectName s) f) as [[fragments log] c]. simpl.
  rewrite run_app, run_chunks.
  unfold submitBegin, submitAccepted. rewrite Hfile, Hname. simpl.
  by destruct c.
Qed.

(** The transcript along any sequence of turns. *)
Lemma run_received s before evs :
  analysisResult s = concat before ->
  analysisResult (run s evs) = concat (received s before evs).
Proof.
  revert s before. induction evs as [|e evs IH]; intros s before Hinv; [done|].
  simpl. apply IH. destruct e as [v|sel| |chunk|r]; simpl; try done.
  - unfold submitBegin. by destruct (submitAccepted s).
  - rewrite concat_app, Hinv. simpl. by rewrite app_nil_r.
  - by destruct r.
Qed.

(** One click on "Analyze" carried through a streamed answer. *)
Lemma handleSubmit_streamed w s f token response rd :
  file s = Some f ->
  truthy (projectName s) = true ->
  getItem w "authToken" = Some token ->
  truthy token = true ->
  fetch w (Api.reportRequest w token (projectName s) f) = Fulfilled response ->
  ok response = true ->
  stream response = Some rd ->
  analysisResult (handleSubmit w s).1.1 = concat (chunks rd).
Proof.
  intros Hfile Hname Htok Htruthy Hfetch Hok Hbody.
  unfold handleSubmit. rewrite Hfile, Hname. simpl.
  unfold Async.bind, Async.modify, Async.finally, Async.try_catch. simpl.
  rewrite (getAnalysisStream_streams w _ _ _ _ token response rd) by done.
  rewrite foldl_onChunk. by destruct (tail rd).
Qed.

(** What one turn of the page does to the transcript. *)
Lemma step_transcript s e :
  analysisResult (step s e)
  = if resets s e then []
    else match e with
         | ChunkRead chunk => analysisResult s ++ chunk
         | _ => analysisResult s
         end.
Proof.
  destruct e as [v|sel| |chunk|r]; simpl; try done.
  - unfold submitBegin. by destruct (submitAccepted s).
  - by destruct r.
Qed.
End main_page.

Section stream_failure.
Import MainPage.
Implicit Types (s : MainPage.t) (f : File.t).

Lemma failed_turns s fragments err :
  submitAccepted s = true ->
  run s (AnalyzeClicked :: (ChunkRead <$> fragments) ++ [CallSettled (Some err)])
  = afterFailure s fragments err.
Proof.
  intros Hacc. simpl. rewrite run_app, run_chunks, foldl_onChunk.
  unfold submitBegin. by rewrite Hacc.
Qed.

(** C2. When the streaming call throws after fragments have been
    delivered, the page keeps the transcript built from them and adds the
    error: the transcript is the concatenation of the fragments, the
    error is the message of the thrown [Error], word for word, and
    both are rendered (each when it is not the empty string), with the
    loading state over.  This holds for the call made through
    [getAnalysisStream] on a stream that fails after its chunks, and for
    any call that settles by throwing after some calls of the callback.
    With the fragments ["## Report\n"] and ["Line 2"] and the error
    ["boom"] the transcript is ["## Report\nLine 2"] and ["boom"] is
    shown. *)
Theorem C2_partial_transcript_survives_failure :
  (forall w s f token response fragments err,
     file s = Some f ->
     truthy (projectName s) = true ->
     getItem w "authToken" = Some token ->
     truthy token = true ->
     fetch w (Api.reportRequest w token (projectName s) f) = Fulfilled response ->
     ok response = true ->
     stream response = Some {| chunks := fragments; tail := Errored err |} ->
     (handleSubmit w s).1.1 = afterFailure s fragments err) /\
  (forall s fragments err,
     submitAccepted s = true ->
     run s (AnalyzeClicked :: (ChunkRead <$> fragments) ++ [CallSettled (Some err)])
     = afterFailure s fragments err) /\
  (forall s fragments message,
     let s' := afterFailure s fragments (ErrorObj message) in
     analysisResult s' = concat fragments /\
     error s' = Some message /\
     report (render s')
       = (if truthy (concat fragments) then Some (concat fragments, false) else None) /\
     errorBanner (render s') = (if truthy message then Some message else None)) /\
  (let s' := (handleSubmit (worldWith (Some (lit "test-token"))
                              (Fulfilled (streamed boomStream))) readyPage).1.1 in
   analysisResult s' = lit "## Report" ++ [10%N] ++ lit "Line 2" /\
   report (render s') = Some (lit "## Report" ++ [10%N] ++ lit "Line 2", false) /\
   errorBanner (render s') = Some (lit "boom")).
Proof.
  split_and!.
  - intros w s f token response fragments err Hfile Hname Htok Htruthy Hfetch Hok Hbody.
    rewrite handleSubmit_turns. unfold turnsOfSubmit, observe.
    assert (Hacc : submitAccepted s = true).
    { apply submitAccepted_true. eauto. }
    rewrite Hfile, Hacc.
    rewrite (getAnalysisStream_streams w _ _ _ _ token response _ Htok Htruthy Hfetch Hok Hbody).
    simpl chunks. simpl tail. rewrite foldl_snoc. simpl.
    by apply failed_turns.
  - apply failed_turns.
  - intros s fragments message. simpl. split_and!; try done.
  - simpl. split_and!; reflexivity.
Qed.
End stream_failure.

(** C2 on the specification's scenario. *)
Lemma C2_partial_transcript_survives_failure_witness :
  (MainPage.handleSubmit
     (worldWith (Some (lit "test-token")) (Fulfilled (streamed boomStream))) readyPage).1.1
  = afterFailure readyPage [reportLine; lit "Line 2"] (ErrorObj (lit "boom")).
Proof.
  refine (proj1 C2_partial_transcript_survives_failure _ readyPage (requirements_txt 24)
            (lit "test-token") (streamed boomStream) [reportLine; lit "Line 2"]
            (ErrorObj (lit "boom")) _ _ _ _ _ _ _).
  - reflexivity.
  - reflexivity.
  - apply lookup_singleton_eq.
  - reflexivity.
  - reflexivity.
  - reflexivity.
  - reflexivity.
Defined.

Section file_selection.
Import MainPage.
Implicit Types (s : MainPage.t) (box : FileUpload.t) (f : File.t).

(** Whatever the upload box decides about a candidate, the page hears of
    it once, with the file the box ends up holding. *)
Lemma intoPage_outcome box f s :
  intoPage (FileUpload.handleFileChange (Some f) box) s
  = handleFileChange (FileUpload.file (FileUpload.handleFileChange (Some f) box).1) s.
Proof.
  unfold intoPage, FileUpload.handleFileChange.
  repeat case_match; reflexivity.
Qed.

(** C9, as the code has it.  A file selection on the analysis page, in
    whatever state, empties the transcript and clears the error, and
    does so whether the upload box accepted or rejected the new file
    (the page stores the outcome in the same update).  It does not touch
    the loading flag: the page is idle afterwards when no analysis was
    in flight, and is waiting for the first chunk when one was. *)
Theorem C9_file_selection_resets s selected box f :
  handleFileChange selected s
  = {| projectName := projectName s; file := selected; analysisResult := [];
       isLoading := isLoading s; error := None |} /\
  phase_of (handleFileChange selected s) = (if isLoading s then Submitting else Idle) /\
  let page := intoPage (FileUpload.handleFileChange (Some f) box) s in
  analysisResult page = [] /\
  error page = None /\
  file page = FileUpload.file (FileUpload.handleFileChange (Some f) box).1 /\
  isLoading page = isLoading s.
Proof.
  split; [done|]. split.
  - unfold phase_of. simpl. by destruct (isLoading s).
  - intros page. subst page. by rewrite intoPage_outcome.
Qed.
End file_selection.

(** C9 fails as stated: a page that is streaming (reached from
    [readyPage] by a click on "Analyze" and one chunk) is not idle after a
    new file is selected; the loading flag is still set, the page shows
    the waiting notice and the "Analyze" button stays disabled. *)
Lemma C9_selection_while_streaming_is_not_idle :
  MainPage.phase_of midStream = MainPage.Streaming /\
  let page := MainPage.handleFileChange (Some (requirements_txt 24)) midStream in
  MainPage.phase_of page <> MainPage.Idle /\
  MainPage.isLoading page = true /\
  MainPage.waitingNotice (MainPage.render page) = true /\
  MainPage.analyzeDisabled (MainPage.render page) = true.
Proof. vm_compute. split_and!; done. Qed.

(** ** The form validators *)

Section validators.
Import Validators.
Implicit Types u p c : jsstring.

(** The user-name schema looks at the length of the string as typed:
    [trim] comes last in the chain and only shapes the output. *)
Lemma usernameSchema_spec u :
  parseString usernameSchema u
  = (trim u,
     (if (length u <? 4)%nat then [USERNAME_TOO_SHORT] else [])
     ++ (if (100 <? length u)%nat then [USERNAME_TOO_LONG] else [])).
Proof.
  unfold usernameSchema. simpl.
  by destruct (length u <? 4)%nat, (100 <? length u)%nat.
Qed.

Lemma usernameSchema_passes u :
  (parseString usernameSchema u).2 = [] <-> 4 <= length u <= 100.
Proof.
  rewrite usernameSchema_spec. simpl.
  destruct (Nat.ltb_spec (length u) 4), (Nat.ltb_spec 100 (length u));
    simpl; split; try done; lia.
Qed.

Lemma passwordSchema_spec p :
  parseString passwordSchema p
  = (p, if (length p <? 4)%nat then [PASSWORD_TOO_SHORT] else []).
Proof. reflexivity. Qed.

(** [loginSchema] succeeds exactly on a user name of 4 to 100 code units
    and a password of at least 4. *)
Lemma loginSchema_success u p :
  (exists data, loginSchema {| username := u; password := p |} = Success data)
  <-> 4 <= length u <= 100 /\ 4 <= length p.
Proof.
  unfold loginSchema, parseField.
  rewrite usernameSchema_spec, passwordSchema_spec.
  cbn [username password].
  destruct (Nat.ltb_spec (length u) 4), (Nat.ltb_spec 100 (length u)),
           (Nat.ltb_spec (length p) 4); simpl.
  all: split; [intros [data Hdata] | intros [??]].
  all: try lia; try discriminate; eauto.
Qed.

Lemma loginSchema_short_username u p :
  length u < 4 ->
  exists more,
    loginSchema {| username := u; password := p |}
    = Failure ({| path := ["username"]; message := USERNAME_TOO_SHORT |} :: more).
Proof.
  intros Hshort%Nat.ltb_lt. unfold loginSchema, parseField.
  rewrite usernameSchema_spec, passwordSchema_spec. cbn [username password].
  rewrite Hshort. simpl.
  destruct (100 <? length u)%nat, (length p <? 4)%nat; simpl; eauto.
Qed.
End validators.

(** ** The login form *)

(** Unfolds the [async] combinators one layer and computes. *)
Ltac async_step :=
  unfold Async.bind, Async.modify, Async.finally, Async.try_catch, Async.fetch,
    Async.await, Async.emit, Async.throw, Async.ret, Async.wait;
  simpl.

Section api_calls.
Context {S : Type} (w : World).
Implicit Types (email password : jsstring) (s : S).

(** [loginUser] makes one request, the POST of the form to [/users/token]. *)
Lemma loginUser_calls email password s :
  exists c,
    Api.loginUser w email password s
    = (s, [Fetch {| url := Api.API_URL w ++ lit "/users/token";
                    method := lit "POST";
                    headers := [];
                    body := URLSearchParams [ (lit "username", email);
                                              (lit "password", password) ] |}], c).
Proof.
  unfold Api.loginUser. async_step.
  destruct (fetch w _) as [response| |]; eauto.
  destruct (ok response); simpl; eauto.
Qed.

(** [registerUser] makes one request, the POST of the JSON object to
    [/users]. *)
Lemma registerUser_calls email password s :
  exists c,
    Api.registerUser w email password s
    = (s, [Fetch {| url := Api.API_URL w ++ lit "/users";
                    method := lit "POST";
                    headers := [ (lit "Content-Type", lit "application/json") ];
                    body := JsonText (JObject [ (lit "username", JString email);
                                                (lit "password", JString password) ]) |}],
       c).
Proof.
  unfold Api.registerUser. async_step.
  destruct (fetch w _) as [response| |]; eauto.
  destruct (ok response); simpl; eauto.
Qed.
End api_calls.

Section login_page.
Import LoginPage.
Context (w : World).
Implicit Types s : LoginPage.t.

(** A submit that fails validation shows the first issue and calls
    nothing. *)
Lemma handleSubmit_blocked s issue more :
  Validators.loginSchema (loginInput s) = Validators.Failure (issue :: more) ->
  handleSubmit w s = (setError (Validators.message issue) s, [], Fulfilled tt).
Proof.
  intros Hfail. unfold handleSubmit. fold (loginInput s). rewrite Hfail. reflexivity.
Qed.

(** A submit that passes validation posts the credentials as typed. *)
Lemma handleSubmit_submits s data :
  Validators.loginSchema (loginInput s) = Validators.Success data ->
  exists log,
    (handleSubmit w s).1.2
    = Fetch {| url := Api.API_URL w ++ lit "/users/token";
               method := lit "POST";
               headers := [];
               body := URLSearchParams [ (lit "username", email s);
                                         (lit "password", password s) ] |} :: log.
Proof.
  intros Hok. unfold handleSubmit. fold (loginInput s). rewrite Hok.
  async_step.
  destruct (loginUser_calls w (email s) (password s)
              (setIsSubmitting true (setError (lit "") s))) as [c ->].
  destruct c as [data'| |]; simpl; eauto.
  async_step. destruct (access_token data'); simpl; eauto.
Qed.

(** On the login form a network call is made only after [loginSchema]
    has accepted the input. *)
Lemma login_validation_gate s :
  ~ offline (handleSubmit w s) <->
  4 <= length (email s) <= 100 /\ 4 <= length (password s).
Proof.
  rewrite <- loginSchema_success. fold (loginInput s). unfold offline.
  destruct (Validators.loginSchema (loginInput s)) as [data|issues] eqn:Hparse.
  - destruct (handleSubmit_submits s data Hparse) as [log ->]. simpl.
    split; [eauto | done].
  - split; [|by intros [data [=]]].
    intros Hcall. destruct Hcall. unfold handleSubmit. fold (loginInput s).
    rewrite Hparse. by destruct issues.
Qed.
End login_page.

Section login_claims.
Import LoginPage.
Implicit Types s : LoginPage.t.

(** C7, as the code has it.  An identifier of fewer than 4 code units
    as typed blocks the login submit with the identifier's length
    message and no call is made; an identifier of exactly 4 passes the
    length rule.  The rule is that the length of the string as typed
    lies in [4, 100]: the schema trims last, so trimming shapes the
    parsed value and plays no part in the length checks. *)
Theorem C7_identifier_length_rule w s :
  (length (email s) < 4 ->
     handleSubmit w s = (setError USERNAME_TOO_SHORT s, [], Fulfilled tt) /\
     offline (handleSubmit w s)) /\
  (length (email s) = 4 ->
     (Validators.parseString Validators.usernameSchema (email s)).2 = []) /\
  ((Validators.parseString Validators.usernameSchema (email s)).2 = []
     <-> 4 <= length (email s) <= 100) /\
  (Validators.parseString Validators.usernameSchema (email s)).1 = trim (email s).
Proof.
  split_and!.
  - intros Hshort.
    destruct (loginSchema_short_username (email s) (password s) Hshort) as [more Hfail].
    rewrite (handleSubmit_blocked w s _ more Hfail). done.
  - intros Hlen. apply usernameSchema_passes. lia.
  - apply usernameSchema_passes.
  - by rewrite usernameSchema_spec.
Qed.
End login_claims.

(** C7 at the identifier ["abc"]. *)
Lemma C7_identifier_length_rule_witness :
  LoginPage.handleSubmit unreachable shortLogin
  = (LoginPage.setError USERNAME_TOO_SHORT shortLogin, [], Fulfilled tt) /\
  offline (LoginPage.handleSubmit unreachable shortLogin).
Proof.
  apply (proj1 (C7_identifier_length_rule unreachable shortLogin)).
  vm_compute. lia.
Defined.

(** C7 fails as stated: the identifier ["ab  "] has trimmed length 2, yet
    the login form accepts it and posts it, as typed, to the token
    endpoint. *)
Lemma C7_padded_identifier_is_submitted :
  length (trim (LoginPage.email paddedLogin)) = 2 /\
  requests (LoginPage.handleSubmit unreachable paddedLogin).1.2
  = [ {| url := lit "http://localhost:8000/users/token";
         method := lit "POST";
         headers := [];
         body := URLSearchParams [ (lit "username", lit "ab  ");
                                   (lit "password", lit "password123") ] |} ].
Proof. split; reflexivity. Qed.

Section signup_claims.
Import SignUpPage.
Implicit Types s : SignUpPage.t.

(** C8. Whenever the secret and its confirmation differ, the
    registration submit stops with the mismatch message and makes no
    call, whatever the lengths of the two strings. *)
Theorem C8_mismatch_blocks_registration w s :
  password s <> confirmPassword s ->
  handleSubmit w s = (setError PASSWORDS_DIFFER s, [], Fulfilled tt) /\
  offline (handleSubmit w s).
Proof.
  intros Hne%str_eqb_false. unfold handleSubmit. by rewrite Hne.
Qed.

(** When the two strings agree the form goes to the network with no
    further check. *)
Lemma handleSubmit_registers w s :
  password s = confirmPassword s ->
  exists log,
    (handleSubmit w s).1.2
    = Fetch {| url := Api.API_URL w ++ lit "/users";
               method := lit "POST";
               headers := [ (lit "Content-Type", lit "application/json") ];
               body := JsonText (JObject [ (lit "username", JString (email s));
                                           (lit "password", JString (password s)) ]) |}
        :: log.
Proof.
  intros Heq%str_eqb_true. unfold handleSubmit. rewrite Heq. async_step.
  destruct (registerUser_calls w (email s) (password s) (setError (lit "") s)) as [c ->].
  destruct c; simpl; eauto.
Qed.
End signup_claims.

(** C8 at two different strings that both have four code units or more. *)
Lemma C8_mismatch_blocks_registration_witness :
  4 <= length (SignUpPage.password mismatchedSignUp) /\
  4 <= length (SignUpPage.confirmPassword mismatchedSignUp) /\
  SignUpPage.handleSubmit unreachable mismatchedSignUp
  = (SignUpPage.setError PASSWORDS_DIFFER mismatchedSignUp, [], Fulfilled tt) /\
  offline (SignUpPage.handleSubmit unreachable mismatchedSignUp).
Proof.
  split; [vm_compute; lia|]. split; [vm_compute; lia|].
  apply (C8_mismatch_blocks_registration unreachable mismatchedSignUp).
  vm_compute. discriminate.
Defined.

(** C6 at the registration form: with the identifier left empty and the
    two secrets equal, [signUpSchema] rejects the input for its identifier,
    but the form does not consult the schema and posts the registration. *)
Theorem C6_signup_skips_length_rules :
  Validators.signUpSchema
    {| Validators.su_username := SignUpPage.email emptyEmailSignUp;
       Validators.su_password := SignUpPage.password emptyEmailSignUp;
       Validators.su_confirmPassword := SignUpPage.confirmPassword emptyEmailSignUp |}
  = Validators.Failure
      [ {| Validators.path := ["username"]; Validators.message := USERNAME_TOO_SHORT |} ] /\
  requests (SignUpPage.handleSubmit unreachable emptyEmailSignUp).1.2
  = [ {| url := lit "http://localhost:8000/users";
         method := lit "POST";
         headers := [ (lit "Content-Type", lit "application/json") ];
         body := JsonText (JObject [ (lit "username", JString []);
                                     (lit "password", JString (lit "password123")) ]) |} ] /\
  forall w, ~ offline (SignUpPage.handleSubmit w emptyEmailSignUp).
Proof.
  split_and!; [reflexivity..|].
  intros w. unfold offline.
  destruct (handleSubmit_registers w emptyEmailSignUp eq_refl) as [log ->]. done.
Qed.

(** * Further properties *)

(** ** The upload box over time *)

Section upload_box.
Import FileUpload.
Implicit Types (f : File.t) (s : FileUpload.t) (e : UploadBox.event)
  (evs : list UploadBox.event).

(** The three rules decide [valid]. *)
Lemma handleFileChange_cases f s :
  (valid f /\ handleFileChange (Some f) s = accepted f s) \/
  (~ valid f /\
   exists reason,
     reason ∈ [MIME_REASON; EXTENSION_REASON; SIZE_REASON] /\
     handleFileChange (Some f) s = rejected reason s).
Proof.
  destruct (decide (File.type f = lit "text/plain")) as [Hty|Hty].
  - destruct (endsWith (File.name f) (lit ".txt")) eqn:Hext.
    + apply endsWith_suffix in Hext.
      destruct (N.le_gt_cases (File.size f) MAX_FILE_SIZE) as [Hle|Hgt].
      * left. split; [done|]. by apply handleFileChange_accept.
      * right. split; [intros (_ & _ & ?); lia|].
        exists SIZE_REASON. split; [set_solver|]. by apply handleFileChange_size.
    + apply endsWith_not_suffix in Hext. right. split; [by intros (_ & ? & _)|].
      exists EXTENSION_REASON. split; [set_solver|]. by apply handleFileChange_extension.
  - right. split; [by intros (? & _ & _)|].
    exists MIME_REASON. split; [set_solver|]. by apply handleFileChange_mime.
Qed.

Lemma step_consistent s e : consistent s -> consistent (UploadBox.step s e).1.
Proof.
  intros Hs. destruct e as [files|files| | |]; simpl; try done.
  - unfold handleInputChange. destruct (first_file files) as [f|]; [|done].
    destruct (handleFileChange_cases f s) as [[Hv ->]|(_ & reason & _ & ->)]; done.
  - unfold handleDrop. destruct (first_file files) as [f|]; [|done].
    destruct (handleFileChange_cases f (setIsDragging false s))
      as [[Hv ->]|(_ & reason & _ & ->)]; done.
Qed.

Lemma run_cons s e evs :
  UploadBox.run s (e :: evs)
  = ((UploadBox.run (UploadBox.step s e).1 evs).1,
     (UploadBox.step s e).2 ++ (UploadBox.run (UploadBox.step s e).1 evs).2).
Proof.
  simpl. destruct (UploadBox.step s e) as [s1 calls1]. simpl.
  by destruct (UploadBox.run s1 evs) as [s2 calls2].
Qed.

(** X1. Whatever is picked, dropped, dragged or removed, in any order,
    the upload box never holds a file that fails one of its three rules,
    and never holds a file and a rejection reason together. *)
Theorem X1_box_only_holds_valid_files s evs :
  consistent s ->
  consistent (UploadBox.run s evs).1 /\
  (forall f, file (UploadBox.run s evs).1 = Some f ->
     valid f /\ error (UploadBox.run s evs).1 = None).
Proof.
  intros Hs.
  assert (Hrun : consistent (UploadBox.run s evs).1).
  { revert s Hs. induction evs as [|e evs IH]; intros s Hs; [done|].
    rewrite run_cons. simpl. by apply IH, step_consistent. }
  split; [done|]. intros f Hf. unfold consistent in Hrun. by rewrite Hf in Hrun.
Qed.

(** What one event tells the parent: nothing, with the selection
    untouched, or the selection it leaves behind. *)
Lemma step_calls s e :
  ((UploadBox.step s e).2 = [] /\
   file (UploadBox.step s e).1 = file s /\ error (UploadBox.step s e).1 = error s) \/
  (UploadBox.step s e).2 = [file (UploadBox.step s e).1].
Proof.
  destruct e as [files|files| | |]; simpl; auto.
  - unfold handleInputChange. destruct (first_file files) as [f|]; [|auto].
    right. destruct (handleFileChange_cases f s) as [[_ ->]|(_ & reason & _ & ->)]; done.
  - unfold handleDrop. destruct (first_file files) as [f|]; [|auto].
    right. destruct (handleFileChange_cases f (setIsDragging false s))
      as [[_ ->]|(_ & reason & _ & ->)]; done.
Qed.

(** X2. The parent is always up to date: after any sequence of events the
    last argument [onChange] was called with is the file the box now holds
    ([null] when it holds none), and while [onChange] has not been called
    the box holds what it held at the start.  Each single event calls
    [onChange] at most once. *)
Theorem X2_last_onChange_is_the_selection s evs :
  file (UploadBox.run s evs).1 = default (file s) (last (UploadBox.run s evs).2) /\
  (forall e, length (UploadBox.step s e).2 <= 1).
Proof.
  split.
  - revert s. induction evs as [|e evs IH]; intros s; [done|].
    rewrite run_cons. simpl. rewrite last_app, IH.
    destruct (last (UploadBox.run (UploadBox.step s e).1 evs).2) as [x|]; [done|].
    simpl. destruct (step_calls s e) as [(-> & Hfile & _)| ->]; done.
  - intros e. destruct (step_calls s e) as [(-> & _)| ->]; simpl; lia.
Qed.

(** X3. The dragging flag is invisible: two boxes that agree on file and
    reason render alike and react to every event with the same calls and
    the same new file and reason.  Dropping files is handled like picking
    them in the dialog. *)
Theorem X3_dragging_is_invisible s s' e files :
  file s = file s' ->
  error s = error s' ->
  render s = render s' /\
  (UploadBox.step s e).2 = (UploadBox.step s' e).2 /\
  file (UploadBox.step s e).1 = file (UploadBox.step s' e).1 /\
  error (UploadBox.step s e).1 = error (UploadBox.step s' e).1 /\
  (handleDrop files s).2 = (handleInputChange files s).2 /\
  render (handleDrop files s).1 = render (handleInputChange files s).1.
Proof.
  intros Hfile Herr.
  assert (Hsel : forall c t t', file t = file t' -> error t = error t' ->
            (handleFileChange c t).2 = (handleFileChange c t').2 /\
            file (handleFileChange c t).1 = file (handleFileChange c t').1 /\
            error (handleFileChange c t).1 = error (handleFileChange c t').1).
  { intros [f|] t t' Ht Ht'; [|done]. unfold handleFileChange.
    repeat case_match; done. }
  split_and!.
  - unfold render. by rewrite Hfile, Herr.
  - destruct e; simpl; try done; by apply Hsel.
  - destruct e; simpl; try done; by apply Hsel.
  - destruct e; simpl; try done; by apply Hsel.
  - by apply Hsel.
  - unfold handleDrop, handleInputChange, render.
    destruct (Hsel (first_file files) (setIsDragging false s) s eq_refl eq_refl)
      as (_ & -> & ->). done.
Qed.

(** X4. After a file is offered the box shows either the chip with the
    name of that file, exactly when the file is valid, or the drop zone
    with one of the three reasons, which is never blank. *)
Theorem X4_selection_is_always_answered f s :
  (valid f -> render (handleFileChange (Some f) s).1 = FileChip (File.name f)) /\
  (~ valid f ->
     exists reason,
       reason ∈ [MIME_REASON; EXTENSION_REASON; SIZE_REASON] /\
       truthy reason = true /\
       render (handleFileChange (Some f) s).1 = DropZone (Some reason)).
Proof.
  destruct (handleFileChange_cases f s) as [[Hv ->]|(Hnv & reason & Hin & ->)].
  - split; [done|]. by intros [].
  - split; [done|]. intros _. exists reason.
    assert (truthy reason = true) as Htruthy.
    { set_unfold. by destruct Hin as [->|[->|[->|[]]]]. }
    split_and!; [done..|]. unfold render, rejected. simpl. by rewrite Htruthy.
Qed.
End upload_box.

(** ** The streaming call, case by case *)

Section call_cases.
Context {S : Type} (w : World).
Implicit Types (projectName token : jsstring) (f : File.t) (s : S).

(** X5. [getAnalysisStream] invokes its callback only on the chunks of the
    body of a successful response to a request that carried a token: in
    every other case (no token, [fetch] failed or still pending, a non-2xx
    status, no body) the callback is not invoked at all.  When it is, it
    receives exactly the chunks read so far, in order. *)
Theorem X5_callback_only_on_a_streamed_body projectName f (onChunk : jsstring -> S -> S) s :
  (observe w projectName f).1.1 = [] /\
    (Api.getAnalysisStream w projectName f onChunk s).1.1 = s
  \/
  exists token response rd,
    getItem w "authToken" = Some token /\
    truthy token = true /\
    fetch w (Api.reportRequest w token projectName f) = Fulfilled response /\
    ok response = true /\
    stream response = Some rd /\
    (observe w projectName f).1.1 = chunks rd /\
    (Api.getAnalysisStream w projectName f onChunk s).1.1
    = foldl (fun s chunk => onChunk chunk s) s (chunks rd).
Proof.
  rewrite (getAnalysisStream_observe w projectName f onChunk s). simpl.
  unfold observe, Api.getAnalysisStream.
  destruct (getItem w "authToken") as [token|] eqn:Htok; [|by left].
  destruct (truthy token) eqn:Htruthy; [|by left]. simpl.
  unfold Async.bind, Async.fetch.
  destruct (fetch w _) as [response| |] eqn:Hfetch; [|by left..].
  destruct (ok response) eqn:Hok; simpl.
  - destruct (stream response) as [rd|] eqn:Hbody; [|by left].
    right. exists token, response, rd. rewrite !readLoop_spec. simpl.
    by rewrite foldl_snoc.
  - left. unfold Async.await. by destruct (text response).
Qed.

Lemma getAnalysisStream_not_ok projectName f (onChunk : jsstring -> S -> S) s
    token response errorText :
  getItem w "authToken" = Some token ->
  truthy token = true ->
  fetch w (Api.reportRequest w token projectName f) = Fulfilled response ->
  ok response = false ->
  text response = Fulfilled errorText ->
  Api.getAnalysisStream w projectName f onChunk s
  = (s, [Fetch (Api.reportRequest w token projectName f)],
     Rejected (ErrorObj (lit "Analysis request failed: " ++ errorText))).
Proof.
  intros Htok Htruthy Hfetch Hok Htext.
  unfold Api.getAnalysisStream. rewrite Htok, Htruthy. simpl.
  unfold Async.bind, Async.fetch, Async.await, Async.throw.
  by rewrite Hfetch, Hok, Htext.
Qed.

Lemma getAnalysisStream_no_body projectName f (onChunk : jsstring -> S -> S) s
    token response :
  getItem w "authToken" = Some token ->
  truthy token = true ->
  fetch w (Api.reportRequest w token projectName f) = Fulfilled response ->
  ok response = true ->
  stream response = None ->
  Api.getAnalysisStream w projectName f onChunk s
  = (s, [Fetch (Api.reportRequest w token projectName f)],
     Rejected (ErrorObj (lit "No response body from stream"))).
Proof.
  intros Htok Htruthy Hfetch Hok Hbody.
  unfold Api.getAnalysisStream. rewrite Htok, Htruthy. simpl.
  unfold Async.bind, Async.fetch, Async.throw.
  by rewrite Hfetch, Hok, Hbody.
Qed.

Lemma getAnalysisStream_fetch_failed projectName f (onChunk : jsstring -> S -> S) s
    token e :
  getItem w "authToken" = Some token ->
  truthy token = true ->
  fetch w (Api.reportRequest w token projectName f) = Rejected e ->
  Api.getAnalysisStream w projectName f onChunk s
  = (s, [Fetch (Api.reportRequest w token projectName f)], Rejected e).
Proof.
  intros Htok Htruthy Hfetch.
  unfold Api.getAnalysisStream. rewrite Htok, Htruthy. simpl.
  unfold Async.bind, Async.fetch. by rewrite Hfetch.
Qed.

(** X6. How the call fails before any chunk is read: a non-2xx response
    whose text is [errorText] rejects with ["Analysis request failed: "]
    followed by that text, a successful response without a body rejects
    with ["No response body from stream"], and a failure of [fetch]
    itself is passed on unchanged.  In each case one request was made. *)
Theorem X6_failures_before_streaming projectName f (onChunk : jsstring -> S -> S) s token :
  getItem w "authToken" = Some token ->
  truthy token = true ->
  let call := Api.getAnalysisStream w projectName f onChunk s in
  let request := Api.reportRequest w token projectName f in
  (forall response errorText,
     fetch w request = Fulfilled response -> ok response = false ->
     text response = Fulfilled errorText ->
     call = (s, [Fetch request],
             Rejected (ErrorObj (lit "Analysis request failed: " ++ errorText)))) /\
  (forall response,
     fetch w request = Fulfilled response -> ok response = true ->
     stream response = None ->
     call = (s, [Fetch request],
             Rejected (ErrorObj (lit "No response body from stream")))) /\
  (forall e, fetch w request = Rejected e -> call = (s, [Fetch request], Rejected e)).
Proof.
  intros Htok Htruthy call request. subst call request.
  split_and!; eauto using getAnalysisStream_not_ok, getAnalysisStream_no_body,
                getAnalysisStream_fetch_failed.
Qed.
End call_cases.

(** X6 against a server that answers 500 with the text ["boom"]. *)
Lemma X6_failures_before_streaming_witness :
  Api.getAnalysisStream
    (worldWith (Some (lit "test-token"))
       (Fulfilled {| ok := false; text := Fulfilled (lit "boom");
                     json := Unsettled; stream := None |}))
    (lit "demo") (requirements_txt 24) MainPage.onChunk readyPage
  = (readyPage,
     [Fetch (Api.reportRequest
               (worldWith (Some (lit "test-token"))
                  (Fulfilled {| ok := false; text := Fulfilled (lit "boom");
                                json := Unsettled; stream := None |}))
               (lit "test-token") (lit "demo") (requirements_txt 24))],
     Rejected (ErrorObj (lit "Analysis request failed: boom"))).
Proof.
  refine (proj1 (X6_failures_before_streaming _ (lit "demo") (requirements_txt 24)
                   MainPage.onChunk readyPage (lit "test-token") _ _)
            {| ok := false; text := Fulfilled (lit "boom");
               json := Unsettled; stream := None |} (lit "boom") _ _ _).
  - apply lookup_singleton_eq.
  - reflexivity.
  - reflexivity.
  - reflexivity.
  - reflexivity.
Defined.

(** ** One click on "Analyze" *)

Section analyze_click.
Import MainPage.
Context (w : World).
Implicit Types (s : MainPage.t) (f : File.t).

Lemma handleSubmit_refused s :
  submitAccepted s = false ->
  handleSubmit w s = (setError (Some NOTHING_TO_ANALYZE) s, [], Fulfilled tt).
Proof.
  unfold submitAccepted, handleSubmit. destruct (file s) as [f|]; [|done].
  rewrite bool_decide_eq_true_2 by eauto. simpl. by intros ->.
Qed.

Lemma handleSubmit_accepted s f :
  file s = Some f ->
  truthy (projectName s) = true ->
  handleSubmit w s
  = (afterCall s (observe w (projectName s) f).1.1 (observe w (projectName s) f).2,
     (observe w (projectName s) f).1.2,
     match (observe w (projectName s) f).2 with
     | Unsettled => Unsettled
     | _ => Fulfilled tt
     end).
Proof.
  intros Hfile Hname. unfold handleSubmit. rewrite Hfile, Hname. simpl.
  unfold Async.bind, Async.modify, Async.finally, Async.try_catch. simpl.
  rewrite getAnalysisStream_observe.
  destruct (observe w (projectName s) f) as [[fragments log] c]. simpl.
  rewrite foldl_onChunk. unfold afterCall.
  destruct c as [[]|e|]; simpl; by rewrite ?app_nil_r.
Qed.

(** The calls of [getAnalysisStream]: none, or the one request. *)
Lemma observe_calls projectName f :
  (truthy_opt (getItem w "authToken") = false /\ (observe w projectName f).1.2 = []) \/
  (exists token,
     getItem w "authToken" = Some token /\ truthy token = true /\
     (observe w projectName f).1.2 = [Fetch (Api.reportRequest w token projectName f)]).
Proof.
  destruct (truthy_opt (getItem w "authToken")) eqn:Htruthy.
  - right. destruct (getItem w "authToken") as [token|] eqn:Htok; [|done].
    exists token. split_and!; [done..|]. by apply getAnalysisStream_calls.
  - left. split; [done|]. unfold observe. by rewrite getAnalysisStream_no_token.
Qed.

(** X7. The page talks to the network only for a complete form and a
    live session: if a click on "Analyze" makes any request, then a file
    is selected, the project name is not empty, a token is stored, and the
    request is the only one made, carrying that token, name and file.
    Without a file or a name the click only sets the fixed message. *)
Theorem X7_analyze_needs_file_name_and_token s :
  (forall r, r ∈ requests (handleSubmit w s).1.2 ->
     exists token f,
       file s = Some f /\
       truthy (projectName s) = true /\
       getItem w "authToken" = Some token /\
       truthy token = true /\
       r = Api.reportRequest w token (projectName s) f /\
       (handleSubmit w s).1.2 = [Fetch r]) /\
  (submitAccepted s = false ->
     handleSubmit w s = (setError (Some NOTHING_TO_ANALYZE) s, [], Fulfilled tt)).
Proof.
  split; [|apply handleSubmit_refused].
  intros r Hr. destruct (submitAccepted s) eqn:Hacc.
  - apply submitAccepted_true in Hacc as [[f Hfile] Hname].
    rewrite (handleSubmit_accepted s f Hfile Hname) in Hr |- *. simpl in *.
    destruct (observe_calls (projectName s) f) as [[_ Hlog]|(token & Htok & Htruthy & Hlog)];
      rewrite Hlog in Hr |- *; simpl in Hr.
    + by apply elem_of_nil in Hr.
    + apply list_elem_of_singleton in Hr as ->. exists token, f. done.
  - rewrite (handleSubmit_refused s Hacc) in Hr. simpl in Hr. by apply elem_of_nil in Hr.
Qed.

(** X8. A click on "Analyze" never lets an error escape and never leaves
    the page stuck: the handler is not rejected; file and project name are
    kept; after an accepted click the page is loading exactly while the
    call has not settled, and once it has, the button is enabled again. *)
Theorem X8_analyze_always_returns s :
  (forall e, (handleSubmit w s).2 <> Rejected e) /\
  file (handleSubmit w s).1.1 = file s /\
  projectName (handleSubmit w s).1.1 = projectName s /\
  (submitAccepted s = true ->
     (isLoading (handleSubmit w s).1.1 = true <-> (handleSubmit w s).2 = Unsettled) /\
     ((handleSubmit w s).2 <> Unsettled ->
        analyzeDisabled (render (handleSubmit w s).1.1) = false)).
Proof.
  destruct (submitAccepted s) eqn:Hacc.
  - pose proof Hacc as Hacc'.
    apply submitAccepted_true in Hacc as [[f Hfile] Hname].
    rewrite (handleSubmit_accepted s f Hfile Hname). simpl.
    destruct (observe w (projectName s) f).2 as [[]|e|]; simpl;
      rewrite ?Hfile, ?Hname; split_and!; try done; intros _; split; try done.
  - rewrite (handleSubmit_refused s Hacc). simpl. split_and!; done.
Qed.

(** X9. What an analysis leaves on the page depends on the file, the
    project name and the world only: two pages that agree on file and name
    end in the same state, whatever transcript, error or loading flag
    they showed before.  A new analysis thus discards the previous
    transcript and error. *)
Theorem X9_analysis_forgets_the_previous_run s s' :
  submitAccepted s = true ->
  file s' = file s ->
  projectName s' = projectName s ->
  handleSubmit w s' = handleSubmit w s.
Proof.
  intros Hacc Hfile' Hname'.
  apply submitAccepted_true in Hacc as [[f Hfile] Hname].
  rewrite (handleSubmit_accepted s f Hfile Hname).
  rewrite (handleSubmit_accepted s' f) by congruence.
  unfold afterCall. by rewrite Hfile', Hname'.
Qed.

(** X10. On the page, a click without a stored token ends with the
    message ["Not authenticated. Please log in."], no request, an empty
    transcript and the loading flag off; a non-2xx answer with text
    [errorText] ends with ["Analysis request failed: "] followed by the
    text, shown as it is. *)
Theorem X10_refusals_reach_the_banner s f :
  file s = Some f ->
  truthy (projectName s) = true ->
  (truthy_opt (getItem w "authToken") = false ->
     handleSubmit w s
     = (afterCall s [] (Rejected (ErrorObj NOT_AUTHENTICATED)), [], Fulfilled tt)) /\
  (forall token response errorText,
     getItem w "authToken" = Some token -> truthy token = true ->
     fetch w (Api.reportRequest w token (projectName s) f) = Fulfilled response ->
     ok response = false ->
     text response = Fulfilled errorText ->
     (handleSubmit w s).1.1
     = afterCall s [] (Rejected (ErrorObj (lit "Analysis request failed: " ++ errorText))) /\
     errorBanner (render (handleSubmit w s).1.1)
     = Some (lit "Analysis request failed: " ++ errorText)).
Proof.
  intros Hfile Hname. rewrite (handleSubmit_accepted s f Hfile Hname). split.
  - intros Hno. unfold observe. by rewrite (getAnalysisStream_no_token w _ _ _ _ Hno).
  - intros token response errorText Htok Htruthy Hfetch Hok Htext. unfold observe.
    rewrite (getAnalysisStream_not_ok w (projectName s) f _ [] token response errorText
               Htok Htruthy Hfetch Hok Htext).
    done.
Qed.
End analyze_click.

(** ** The page and its upload box together *)

Section analysis_screen.
Import AnalysisScreen.
Implicit Types (a : AnalysisScreen.t) (evs : list AnalysisScreen.event).

(** The turns of the page other than a file selection keep its file. *)
Lemma page_step_file (s : MainPage.t) (e : MainPage.event) :
  (forall sel, e <> MainPage.FileSelected sel) ->
  MainPage.file (MainPage.step s e) = MainPage.file s.
Proof.
  destruct e as [v|sel| |chunk|r]; simpl; intros Hne; try done.
  - by destruct (Hne sel).
  - unfold MainPage.submitBegin. by destruct (MainPage.submitAccepted s).
  - by destruct r.
Qed.

Lemma step_inSync a e :
  inSync a -> consistent (box a) ->
  inSync (step a e) /\ consistent (box (step a e)).
Proof.
  unfold inSync. intros Hsync Hbox.
  destruct e as [e|v| |chunk|r]; unfold step; cbn [box page];
    try (split; [by rewrite page_step_file|done]).
  pose proof (step_consistent (box a) e Hbox) as Hbox'.
  pose proof (step_calls (box a) e) as Hcalls.
  destruct (UploadBox.step (box a) e) as [box' calls]. simpl in *.
  split; [|done].
  destruct Hcalls as [(-> & Hfile & _)| ->]; simpl; congruence.
Qed.

Lemma run_inSync a evs :
  inSync a -> consistent (box a) ->
  inSync (run a evs) /\ consistent (box (run a evs)).
Proof.
  revert a. induction evs as [|e evs IH]; intros a Hsync Hbox; [done|].
  simpl. destruct (step_inSync a e Hsync Hbox). by apply IH.
Qed.

Lemma page_file_valid evs f :
  MainPage.file (page (run initial evs)) = Some f -> valid f.
Proof.
  intros Hf. destruct (run_inSync initial evs) as [Hsync Hbox]; [done..|].
  unfold inSync in Hsync. rewrite Hsync in Hf.
  unfold consistent in Hbox. rewrite Hf in Hbox. by destruct Hbox.
Qed.

(** X11. The page and its upload box never disagree: after any sequence
    of events on the screen (picking, dropping and removing files, typing
    the name, clicking "Analyze", chunks arriving, the call settling) the
    file the page holds is the file the box shows, and it passes the
    three rules of the box. *)
Theorem X11_page_file_is_the_validated_selection a evs :
  inSync a ->
  consistent (box a) ->
  inSync (run a evs) /\
  consistent (box (run a evs)) /\
  (forall f, MainPage.file (page (run a evs)) = Some f -> valid f).
Proof.
  intros Hsync Hbox.
  destruct (run_inSync a evs Hsync Hbox) as [Hsync' Hbox']. split_and!; [done..|].
  intros f Hf. unfold inSync in Hsync'. rewrite Hsync' in Hf.
  unfold consistent in Hbox'. rewrite Hf in Hbox'. by destruct Hbox'.
Qed.

(** X12. End to end: whatever the user did on the screen since the page
    was loaded, a click on "Analyze" sends at most one request, and the
    file in it has MIME type [text/plain], a name ending in [.txt] and at
    most 1048576 bytes; the project name in it is not empty and the
    bearer token is the stored one. *)
Theorem X12_only_validated_files_are_uploaded w evs r :
  let s := page (run initial evs) in
  r ∈ requests (MainPage.handleSubmit w s).1.2 ->
  exists token f,
    valid f /\
    truthy (MainPage.projectName s) = true /\
    getItem w "authToken" = Some token /\
    r = Api.reportRequest w token (MainPage.projectName s) f /\
    body r = FormData [ (lit "project_name", Text (MainPage.projectName s));
                        (lit "requirements_file", Blob f) ] /\
    requests (MainPage.handleSubmit w s).1.2 = [r].
Proof.
  intros s Hr. subst s.
  set (s := page (run initial evs)) in *.
  destruct (MainPage.submitAccepted s) eqn:Hacc.
  - apply submitAccepted_true in Hacc as [[f Hfile] Hname].
    rewrite (handleSubmit_accepted w s f Hfile Hname) in Hr |- *. simpl in *.
    destruct (observe_calls w (MainPage.projectName s) f)
      as [[_ Hlog]|(token & Htok & Htruthy & Hlog)]; rewrite Hlog in Hr |- *; simpl in Hr.
    + by apply elem_of_nil in Hr.
    + apply list_elem_of_singleton in Hr as ->. exists token, f.
      split_and!; try done.
      by apply (page_file_valid evs f).
  - rewrite (handleSubmit_refused w s Hacc) in Hr. simpl in Hr. by apply elem_of_nil in Hr.
Qed.
End analysis_screen.

(** ** The transcript *)

Section transcript.
Import AnalysisScreen.
Implicit Types (a : AnalysisScreen.t) (evs : list AnalysisScreen.event).

(** The box calls [onChange] exactly on the events of [boxReports], and
    the page then empties its transcript. *)
Lemma box_event_transcript a e :
  MainPage.analysisResult (page (step a (OnBox e)))
  = if boxReports e then [] else MainPage.analysisResult (page a).
Proof.
  unfold step. destruct e as [files|files| | |]; simpl; try done.
  - unfold FileUpload.handleInputChange. destruct files as [|f files]; simpl; [done|].
    destruct (handleFileChange_cases f (box a)) as [[_ Heq]|(_ & reason & _ & Heq)];
      unfold FileUpload.handleFileChange in Heq; rewrite Heq; done.
  - unfold FileUpload.handleDrop. destruct files as [|f files]; simpl; [done|].
    destruct (handleFileChange_cases f (FileUpload.setIsDragging false (box a)))
      as [[_ Heq]|(_ & reason & _ & Heq)];
      unfold FileUpload.handleFileChange in Heq; rewrite Heq; done.
Qed.

Lemma screen_step_transcript a e :
  MainPage.analysisResult (page (step a e))
  = if screenResets a e then []
    else match e with
         | ChunkRead chunk => MainPage.analysisResult (page a) ++ chunk
         | _ => MainPage.analysisResult (page a)
         end.
Proof.
  destruct e as [e|v| |chunk|r].
  - rewrite box_event_transcript. simpl. by destruct (boxReports e).
  - done.
  - apply (step_transcript (page a) MainPage.AnalyzeClicked).
  - done.
  - apply (step_transcript (page a) (MainPage.CallSettled r)).
Qed.

Lemma run_screenReceived a before evs :
  MainPage.analysisResult (page a) = concat before ->
  MainPage.analysisResult (page (run a evs)) = concat (screenReceived a before evs).
Proof.
  revert a before. induction evs as [|e evs IH]; intros a before Hinv; [done|].
  simpl. apply IH. rewrite screen_step_transcript.
  destruct (screenResets a e); [done|].
  destruct e as [e|v| |chunk|r]; try done.
  rewrite concat_app, Hinv. simpl. by rewrite app_nil_r.
Qed.

(** C1, as the code has it.  In every run of a streaming analysis the
    transcript is the concatenation, in arrival order, of the fragments
    the stream reader has delivered since the last reset.  First for one
    click on "Analyze" carried through [getAnalysisStream] on a stream
    that has yielded the chunks [chunks rd] (and may be closed, failed or
    still open).  Then turn by turn and for any sequence of turns, on the
    page alone and on the page with its upload box, where the user may act
    between two chunks: a chunk is appended once, at the end; a reset
    empties the transcript; every other event leaves it as it is.  The
    resets are the start of an analysis and every report of the upload
    box: a file picked or dropped, accepted or not, and also the removal
    of the selected file.  A reload starts from [initial]. *)
Theorem C1_transcript_is_concatenation :
  (forall w s f token response rd,
     MainPage.file s = Some f ->
     truthy (MainPage.projectName s) = true ->
     getItem w "authToken" = Some token ->
     truthy token = true ->
     fetch w (Api.reportRequest w token (MainPage.projectName s) f) = Fulfilled response ->
     ok response = true ->
     stream response = Some rd ->
     MainPage.analysisResult (MainPage.handleSubmit w s).1.1 = concat (chunks rd)) /\
  (forall s before (turns : list MainPage.event),
     MainPage.analysisResult s = concat before ->
     MainPage.analysisResult (MainPage.run s turns) = concat (received s before turns)) /\
  (forall turns : list MainPage.event,
     MainPage.analysisResult (MainPage.run MainPage.initial turns)
     = concat (received MainPage.initial [] turns)) /\
  (forall s (e : MainPage.event),
     MainPage.analysisResult (MainPage.step s e)
     = if resets s e then []
       else match e with
            | MainPage.ChunkRead chunk => MainPage.analysisResult s ++ chunk
            | _ => MainPage.analysisResult s
            end) /\
  (forall a e,
     MainPage.analysisResult (page (step a e))
     = if screenResets a e then []
       else match e with
            | ChunkRead chunk => MainPage.analysisResult (page a) ++ chunk
            | _ => MainPage.analysisResult (page a)
            end) /\
  (forall a before evs,
     MainPage.analysisResult (page a) = concat before ->
     MainPage.analysisResult (page (run a evs)) = concat (screenReceived a before evs)) /\
  (forall evs,
     MainPage.analysisResult (page (run initial evs))
     = concat (screenReceived initial [] evs)) /\
  (forall a,
     MainPage.analysisResult (page (step a (OnBox UploadBox.RemoveClicked))) = [] /\
     MainPage.file (page (step a (OnBox UploadBox.RemoveClicked))) = None).
Proof.
  split_and!.
  - apply handleSubmit_streamed.
  - apply run_received.
  - intros evs. by apply run_received.
  - apply step_transcript.
  - apply screen_step_transcript.
  - apply run_screenReceived.
  - intros evs. by apply run_screenReceived.
  - done.
Qed.
End transcript.

(** C1 on the page [readyPage] with a stream that has yielded two chunks
    and is still open, and on a trace where the user picks another file
    between two chunks. *)
Lemma C1_transcript_is_concatenation_witness :
  MainPage.analysisResult
    (MainPage.handleSubmit
       (worldWith (Some (lit "test-token"))
          (Fulfilled (streamed {| chunks := [reportLine; lit "Line 2"]; tail := Pending |})))
       readyPage).1.1
  = concat [reportLine; lit "Line 2"] /\
  MainPage.analysisResult
    (MainPage.run readyPage
       [MainPage.AnalyzeClicked; MainPage.ChunkRead reportLine;
        MainPage.FileSelected (Some notes_md); MainPage.ChunkRead (lit "Line 2")])
  = concat [lit "Line 2"].
Proof.
  split.
  - refine (proj1 C1_transcript_is_concatenation _ readyPage (requirements_txt 24)
              (lit "test-token")
              (streamed {| chunks := [reportLine; lit "Line 2"]; tail := Pending |})
              {| chunks := [reportLine; lit "Line 2"]; tail := Pending |}
              _ _ _ _ _ _ _).
    + reflexivity.
    + reflexivity.
    + apply lookup_singleton_eq.
    + reflexivity.
    + reflexivity.
    + reflexivity.
    + reflexivity.
  - refine (proj1 (proj2 C1_transcript_is_concatenation) readyPage [] _ _).
    reflexivity.
Defined.

(** C1 fails as stated: on a screen where an analysis has finished and
    the transcript holds its two fragments, a click on "Remove file"
    empties the transcript, although no new file is selected (the page is
    left without a file), no analysis is started (the page is not loading
    and no request is pending) and the page is not reloaded. *)
Lemma C1_removing_the_file_empties_the_transcript :
  MainPage.analysisResult (AnalysisScreen.page finishedScreen)
  = concat [reportLine; lit "Line 2"] /\
  let after := AnalysisScreen.step finishedScreen
                 (AnalysisScreen.OnBox UploadBox.RemoveClicked) in
  MainPage.analysisResult (AnalysisScreen.page after) = [] /\
  MainPage.analysisResult (AnalysisScreen.page after)
  <> concat [reportLine; lit "Line 2"] /\
  MainPage.file (AnalysisScreen.page after) = None /\
  FileUpload.file (AnalysisScreen.box after) = None /\
  MainPage.isLoading (AnalysisScreen.page after) = false.
Proof. vm_compute. split_and!; done. Qed.

(** ** The login form, outcome by outcome *)

Section login_outcomes.
Import LoginPage.
Context (w : World).
Implicit Types s : LoginPage.t.

Lemma loginSchema_rejects u p :
  ~ (4 <= length u <= 100 /\ 4 <= length p) ->
  exists path more,
    Validators.loginSchema {| Validators.username := u; Validators.password := p |}
    = Validators.Failure
        ({| Validators.path := path; Validators.message := firstLoginError u p |} :: more).
Proof.
  intros Hbad. unfold Validators.loginSchema, Validators.parseField, firstLoginError.
  rewrite usernameSchema_spec, passwordSchema_spec.
  cbn [Validators.username Validators.password].
  destruct (Nat.ltb_spec (length u) 4), (Nat.ltb_spec 100 (length u)),
           (Nat.ltb_spec (length p) 4); simpl; eauto.
  lia.
Qed.

Lemma loginSchema_accepts s :
  loginReady s -> exists data, Validators.loginSchema (loginInput s) = Validators.Success data.
Proof. intros Hok. by apply loginSchema_success. Qed.

(** The handler once validation has passed, by how [loginUser] ends. *)
Lemma handleSubmit_validated s :
  loginReady s ->
  exists c,
    Api.loginUser w (email s) (password s) (loginWaiting s)
    = (loginWaiting s, [Fetch (tokenRequest w s)], c) /\
    handleSubmit w s
    = match c with
      | Fulfilled data =>
          match access_token data with
          | Fulfilled token =>
              (loginSettled s [],
               [Fetch (tokenRequest w s); SessionLogin token; Navigate (lit "/")],
               Fulfilled tt)
          | Rejected _ => (loginSettled s LOGIN_FAILED, [Fetch (tokenRequest w s)], Fulfilled tt)
          | Unsettled => (loginWaiting s, [Fetch (tokenRequest w s)], Unsettled)
          end
      | Rejected _ => (loginSettled s LOGIN_FAILED, [Fetch (tokenRequest w s)], Fulfilled tt)
      | Unsettled => (loginWaiting s, [Fetch (tokenRequest w s)], Unsettled)
      end.
Proof.
  intros Hready. destruct (loginSchema_accepts s Hready) as [data Hparse].
  destruct (loginUser_calls w (email s) (password s) (loginWaiting s)) as [c Hcall].
  exists c. split; [done|].
  unfold handleSubmit. fold (loginInput s). rewrite Hparse. async_step.
  change (setIsSubmitting true (setError (lit "") s)) with (loginWaiting s).
  rewrite Hcall. destruct c as [data'| |]; simpl; try done.
  async_step. by destruct (access_token data').
Qed.

(** X13. The login form reaches the network exactly when the identifier
    as typed has 4 to 100 code units and the secret at least 4; the
    request then carries both fields as typed, untrimmed, and is the
    first thing the handler does outside the page. *)
Theorem X13_login_gate s :
  (~ offline (handleSubmit w s) <-> loginReady s) /\
  (loginReady s -> exists log, (handleSubmit w s).1.2 = Fetch (tokenRequest w s) :: log).
Proof.
  split; [apply login_validation_gate|].
  intros Hready. destruct (loginSchema_accepts s Hready) as [data Hparse].
  apply (handleSubmit_submits w s data Hparse).
Qed.

(** X14. When local validation fails the login form shows one message,
    that of the first failing rule in the order identifier too short,
    identifier too long, secret too short; it makes no call and does not
    enter the submitting state. *)
Theorem X14_login_first_error s :
  ~ loginReady s ->
  handleSubmit w s
  = (setError (firstLoginError (email s) (password s)) s, [], Fulfilled tt).
Proof.
  intros Hbad.
  destruct (loginSchema_rejects (email s) (password s) Hbad) as (path & more & Hfail).
  by rewrite (handleSubmit_blocked w s _ more Hfail).
Qed.

Lemma memberOf_found key pre v post :
  Forall (fun kv : jsstring * Json => kv.1 <> key) post ->
  memberOf key (pre ++ (key, v) :: post) = Some v.
Proof.
  intros Hpost. unfold memberOf.
  assert (filter (fun kv : jsstring * Json => kv.1 = key) post = []) as Hnone.
  { induction Hpost as [|kv post Hkv _ IH]; [done|]. by rewrite filter_cons_False. }
  rewrite filter_app, filter_cons_True, Hnone by done. by rewrite last_snoc.
Qed.

Lemma memberOf_missing key fields :
  Forall (fun kv : jsstring * Json => kv.1 <> key) fields ->
  memberOf key fields = None.
Proof.
  intros Hnone. unfold memberOf.
  induction Hnone as [|kv fields Hkv _ IH]; [done|]. by rewrite filter_cons_False.
Qed.

(** X15. Once validation has passed, a login submit ends in one of three
    ways and never throws: logged in, failed, or still waiting with the
    form disabled.  It fails, with the one fixed message, whatever went
    wrong: an unreachable server, a non-2xx status, a body that is not
    JSON or is [null].  On a 2xx answer with a JSON object the session
    store receives the member [access_token] of that object (the last
    one of that name; [undefined] when there is none, and also when the
    JSON is not an object) and then the router is sent to ["/"], with no
    error shown.  The form is never left disabled after the call has
    settled, and it goes to ["/"] only after the call to the session
    store. *)
Theorem X15_login_outcomes s :
  loginReady s ->
  ((exists token,
      handleSubmit w s
      = (loginSettled s [],
         [Fetch (tokenRequest w s); SessionLogin token; Navigate (lit "/")],
         Fulfilled tt)) \/
   handleSubmit w s = (loginSettled s LOGIN_FAILED, [Fetch (tokenRequest w s)], Fulfilled tt) \/
   handleSubmit w s = (loginWaiting s, [Fetch (tokenRequest w s)], Unsettled)) /\
  (forall response,
     fetch w (tokenRequest w s) = Fulfilled response -> ok response = false ->
     handleSubmit w s
     = (loginSettled s LOGIN_FAILED, [Fetch (tokenRequest w s)], Fulfilled tt)) /\
  (forall e,
     fetch w (tokenRequest w s) = Rejected e ->
     handleSubmit w s
     = (loginSettled s LOGIN_FAILED, [Fetch (tokenRequest w s)], Fulfilled tt)) /\
  (forall response e,
     fetch w (tokenRequest w s) = Fulfilled response -> ok response = true ->
     json response = Rejected e \/ json response = Fulfilled JNull ->
     handleSubmit w s
     = (loginSettled s LOGIN_FAILED, [Fetch (tokenRequest w s)], Fulfilled tt)) /\
  (forall response fields,
     fetch w (tokenRequest w s) = Fulfilled response -> ok response = true ->
     json response = Fulfilled (JObject fields) ->
     handleSubmit w s
     = (loginSettled s [],
        [Fetch (tokenRequest w s);
         SessionLogin (memberOf (lit "access_token") fields);
         Navigate (lit "/")],
        Fulfilled tt)) /\
  (forall response data,
     fetch w (tokenRequest w s) = Fulfilled response -> ok response = true ->
     json response = Fulfilled data ->
     data <> JNull -> (forall fields, data <> JObject fields) ->
     handleSubmit w s
     = (loginSettled s [],
        [Fetch (tokenRequest w s); SessionLogin None; Navigate (lit "/")],
        Fulfilled tt)) /\
  (forall pre token post,
     Forall (fun kv : jsstring * Json => kv.1 <> lit "access_token") post ->
     memberOf (lit "access_token") (pre ++ (lit "access_token", token) :: post)
     = Some token) /\
  (forall fields,
     Forall (fun kv : jsstring * Json => kv.1 <> lit "access_token") fields ->
     memberOf (lit "access_token") fields = None).
Proof.
  intros Hready. destruct (handleSubmit_validated s Hready) as (c & Hcall & ->).
  split_and!.
  - destruct c as [data| |]; [|auto..]. destruct (access_token data); eauto.
  - intros response Hfetch Hok. revert Hcall.
    unfold Api.loginUser. async_step. fold (tokenRequest w s).
    rewrite Hfetch, Hok. simpl. by intros [= <-].
  - intros e Hfetch. revert Hcall.
    unfold Api.loginUser. async_step. fold (tokenRequest w s).
    rewrite Hfetch. by intros [= <-].
  - intros response e Hfetch Hok Hjson. revert Hcall.
    unfold Api.loginUser. async_step. fold (tokenRequest w s).
    rewrite Hfetch, Hok. simpl. by destruct Hjson as [-> | ->]; intros [= <-].
  - intros response fields Hfetch Hok Hjson. revert Hcall.
    unfold Api.loginUser. async_step. fold (tokenRequest w s).
    rewrite Hfetch, Hok, Hjson. simpl. by intros [= <-].
  - intros response data Hfetch Hok Hjson Hnull Hobject. revert Hcall.
    unfold Api.loginUser. async_step. fold (tokenRequest w s).
    rewrite Hfetch, Hok, Hjson. simpl. intros [= <-].
    destruct data as [|b|n|str|items|fields]; try done. by destruct (Hobject fields).
  - apply memberOf_found.
  - apply memberOf_missing.
Qed.
End login_outcomes.

(** ** The registration form, outcome by outcome *)

Section signup_outcomes.
Import SignUpPage.
Context (w : World).
Implicit Types s : SignUpPage.t.

Lemma handleSubmit_matching s :
  password s = confirmPassword s ->
  exists c,
    Api.registerUser w (email s) (password s) (setError [] s)
    = (setError [] s, [Fetch (registrationRequest w s)], c) /\
    handleSubmit w s
    = match c with
      | Fulfilled _ =>
          (setError [] s, [Fetch (registrationRequest w s); Navigate (lit "/login")],
           Fulfilled tt)
      | Rejected _ => (setError SIGNUP_FAILED s, [Fetch (registrationRequest w s)], Fulfilled tt)
      | Unsettled => (setError [] s, [Fetch (registrationRequest w s)], Unsettled)
      end.
Proof.
  intros Heq%str_eqb_true.
  destruct (registerUser_calls w (email s) (password s) (setError [] s)) as [c Hcall].
  exists c. split; [done|].
  unfold handleSubmit. rewrite Heq. async_step.
  change (setError (lit "") s) with (setError [] s).
  rewrite Hcall. by destruct c.
Qed.

(** X16. With matching secrets a registration submit posts the identifier
    and the secret and then ends in one of three ways, never throwing:
    registered (the router is sent to ["/login"], no error shown), failed
    (the fixed message, also for a 2xx answer whose body is not JSON), or
    still waiting.  In no case, matching secrets or not, is anything
    handed to the session store: registering does not log in. *)
Theorem X16_signup_outcomes s :
  (password s = confirmPassword s ->
     (handleSubmit w s
      = (setError [] s, [Fetch (registrationRequest w s); Navigate (lit "/login")],
         Fulfilled tt) \/
      handleSubmit w s
      = (setError SIGNUP_FAILED s, [Fetch (registrationRequest w s)], Fulfilled tt) \/
      handleSubmit w s = (setError [] s, [Fetch (registrationRequest w s)], Unsettled)) /\
     (forall response,
        fetch w (registrationRequest w s) = Fulfilled response ->
        (ok response = false \/ exists e, json response = Rejected e) ->
        handleSubmit w s
        = (setError SIGNUP_FAILED s, [Fetch (registrationRequest w s)], Fulfilled tt)) /\
     (forall response data,
        fetch w (registrationRequest w s) = Fulfilled response ->
        ok response = true -> json response = Fulfilled data ->
        handleSubmit w s
        = (setError [] s, [Fetch (registrationRequest w s); Navigate (lit "/login")],
           Fulfilled tt))) /\
  (forall token, SessionLogin token ∉ (handleSubmit w s).1.2).
Proof.
  split.
  - intros Heq. destruct (handleSubmit_matching s Heq) as (c & Hcall & ->). split_and!.
    + destruct c; auto.
    + intros response Hfetch Hbad. revert Hcall.
      unfold Api.registerUser. async_step. fold (registrationRequest w s).
      rewrite Hfetch. destruct Hbad as [-> | [e He]]; simpl.
      * by intros [= <-].
      * destruct (ok response); simpl; [rewrite He|]; by intros [= <-].
    + intros response data Hfetch Hok Hjson. revert Hcall.
      unfold Api.registerUser. async_step. fold (registrationRequest w s).
      rewrite Hfetch, Hok, Hjson. simpl. by intros [= <-].
  - intros token. destruct (decide (password s = confirmPassword s)) as [Heq|Hne].
    + destruct (handleSubmit_matching s Heq) as (c & _ & ->).
      destruct c; simpl;
        repeat (apply not_elem_of_cons; split; [discriminate|]); apply not_elem_of_nil.
    + apply str_eqb_false in Hne. unfold handleSubmit. rewrite Hne. simpl.
      apply not_elem_of_nil.
Qed.
End signup_outcomes.

(** ** The schemas *)

(** Turns the outcomes of the boolean tests into propositions. *)
Ltac reflect_tests :=
  repeat match goal with
  | H : (_ <? _)%nat = true |- _ => apply Nat.ltb_lt in H
  | H : (_ <? _)%nat = false |- _ => apply Nat.ltb_ge in H
  | H : str_eqb _ _ = true |- _ => apply str_eqb_true in H
  | H : str_eqb _ _ = false |- _ => apply str_eqb_false in H
  end.

Section schemas.
Import Validators.
Implicit Types u p c : jsstring.

(** X17. [signUpSchema] accepts exactly the inputs whose identifier as
    typed has 4 to 100 code units, whose secret has at least 4, and whose
    confirmation equals the secret; the parsed value is then the input
    with the identifier trimmed. *)
Theorem X17_signUpSchema_accepts u p c :
  (exists data,
     signUpSchema {| su_username := u; su_password := p; su_confirmPassword := c |}
     = Success data)
  <-> 4 <= length u <= 100 /\ 4 <= length p /\ c = p.
Proof.
  unfold signUpSchema, parseField.
  rewrite usernameSchema_spec, !passwordSchema_spec.
  cbn [su_username su_password su_confirmPassword].
  destruct (length u <? 4)%nat eqn:Hu, (100 <? length u)%nat eqn:Hu',
           (length p <? 4)%nat eqn:Hp, (length c <? 4)%nat eqn:Hc,
           (str_eqb p c) eqn:Heq; simpl.
  all: reflect_tests.
  all: split; [intros [data Hdata]; try discriminate | intros (? & ? & ?)].
  all: subst; try lia; try done; eauto.
Qed.

End schemas.

(** ** What the identifier schema returns *)

Section trimmed_output.
Implicit Types (s t : jsstring) (c : N).










End trimmed_output.

(** ** The routes *)

Section routes.
Import Router.

(** X20. In the route table of [main.tsx] the main page sits only below
    [ProtectedRoute]: whichever chain of nested routes is rendered, the
    main page shows only to an authenticated visitor; without
    authentication a chain shows the login page, the registration page,
    or a redirect to ["/login"], and ["/login"] is the path of a
    top-level route that is the login page itself, outside the guard.
    The login and registration routes show the same with and without
    authentication. *)
Theorem X20_main_page_is_guarded chain isAuthenticated :
  chain ∈ allChains router ->
  (display isAuthenticated chain = ShowsMain -> isAuthenticated = true) /\
  (MainPageElement ∈ chain -> head chain = Some ProtectedRouteElement) /\
  (display false chain = ShowsLogin \/ display false chain = ShowsSignUp \/
   display false chain = Redirects (lit "/login")) /\
  (head chain <> Some ProtectedRouteElement ->
     display isAuthenticated chain = display false chain) /\
  Route (lit "/login") LoginPageElement [] ∈ router /\
  (forall outlet,
     display false (ProtectedRouteElement :: outlet) = Redirects (lit "/login") /\
     display true (ProtectedRouteElement :: outlet) = display true outlet).
Proof.
  intros Hchain.
  assert (chain = [LoginPageElement] \/ chain = [SignUpPageElement] \/
          chain = [ProtectedRouteElement] \/
          chain = [ProtectedRouteElement; MainPageElement]) as Hcases.
  { revert Hchain. unfold allChains, router. simpl.
    rewrite !elem_of_cons, elem_of_nil. tauto. }
  split_and!.
  - destruct Hcases as [-> | [-> | [-> | ->]]]; by destruct isAuthenticated.
  - destruct Hcases as [-> | [-> | [-> | ->]]]; try done.
    + rewrite list_elem_of_singleton. done.
    + rewrite list_elem_of_singleton. done.
  - destruct Hcases as [-> | [-> | [-> | ->]]]; simpl; auto.
  - destruct Hcases as [-> | [-> | [-> | ->]]]; try done.
  - unfold router. apply list_elem_of_here.
  - done.
Qed.
End routes.

(** ** What the page shows of a stream *)

Section stream_view.
Import MainPage.
Context (w : World).
Implicit Types (s : MainPage.t) (f : File.t).

Lemma observe_streams projectName f token response rd :
  getItem w "authToken" = Some token ->
  truthy token = true ->
  fetch w (Api.reportRequest w token projectName f) = Fulfilled response ->
  ok response = true ->
  stream response = Some rd ->
  observe w projectName f
  = (chunks rd, [Fetch (Api.reportRequest w token projectName f)], ending (tail rd)).
Proof.
  intros Htok Htruthy Hfetch Hok Hbody. unfold observe.
  rewrite (getAnalysisStream_streams w _ _ _ _ token response rd) by done.
  by rewrite foldl_snoc.
Qed.

(** X21. What the page shows of a streamed answer, in full.  While the
    stream is open the "Analyze" button is disabled and the page shows
    the waiting notice as long as no text has arrived, then the report
    so far with the "Generating Report..." badge, never both.  When the
    stream has closed the page shows the whole report without the badge,
    no notice and no error, and the button is enabled again.  The error
    banner appears only when the stream failed. *)
Theorem X21_view_of_a_stream s f token response rd :
  file s = Some f ->
  truthy (projectName s) = true ->
  getItem w "authToken" = Some token ->
  truthy token = true ->
  fetch w (Api.reportRequest w token (projectName s) f) = Fulfilled response ->
  ok response = true ->
  stream response = Some rd ->
  let open := match tail rd with Pending => true | _ => false end in
  render (handleSubmit w s).1.1
  = {| analyzeDisabled := open;
       errorBanner := match tail rd with
                      | Errored e =>
                          if truthy (errorText e) then Some (errorText e) else None
                      | _ => None
                      end;
       waitingNotice := open && negb (truthy (concat (chunks rd)));
       report := if truthy (concat (chunks rd))
                 then Some (concat (chunks rd), open) else None |}.
Proof.
  intros Hfile Hname Htok Htruthy Hfetch Hok Hbody open. subst open.
  rewrite (handleSubmit_accepted w s f Hfile Hname).
  rewrite (observe_streams (projectName s) f token response rd) by done.
  unfold render, afterCall. simpl. rewrite Hfile, Hname.
  rewrite bool_decide_eq_true_2 by eauto.
  by destruct (tail rd) as [|e|].
Qed.
End stream_view.

(** ** The further properties on sample inputs *)

(** X1 after a valid file was picked, the box dragged over, and the
    dialog closed without a choice. *)
Lemma X1_box_only_holds_valid_files_witness :
  valid (requirements_txt 24) /\
  FileUpload.error
    (UploadBox.run FileUpload.initial
       [UploadBox.InputChanged [requirements_txt 24]; UploadBox.DraggedOver;
        UploadBox.InputChanged []]).1 = None.
Proof.
  refine (proj2 (X1_box_only_holds_valid_files FileUpload.initial
                   [UploadBox.InputChanged [requirements_txt 24]; UploadBox.DraggedOver;
                    UploadBox.InputChanged []] _) (requirements_txt 24) _).
  - exact I.
  - reflexivity.
Defined.

(** X3 on an idle box and the same box while something is dragged over it. *)
Lemma X3_dragging_is_invisible_witness :
  (UploadBox.step FileUpload.initial (UploadBox.InputChanged [notes_md])).2
  = (UploadBox.step (FileUpload.handleDragOver FileUpload.initial)
       (UploadBox.InputChanged [notes_md])).2.
Proof.
  refine (proj1 (proj2 (X3_dragging_is_invisible FileUpload.initial
            (FileUpload.handleDragOver FileUpload.initial)
            (UploadBox.InputChanged [notes_md]) [notes_md] _ _))).
  - reflexivity.
  - reflexivity.
Defined.

(** X4 at a PDF. *)
Lemma X4_selection_is_always_answered_witness :
  exists reason,
    reason ∈ [MIME_REASON; EXTENSION_REASON; SIZE_REASON] /\
    truthy reason = true /\
    FileUpload.render (FileUpload.handleFileChange (Some report_pdf) FileUpload.initial).1
    = FileUpload.DropZone (Some reason).
Proof.
  apply (proj2 (X4_selection_is_always_answered report_pdf FileUpload.initial)).
  intros [Hty _]. vm_compute in Hty. discriminate.
Defined.

(** X7 on the ready page with a stored token. *)
Lemma X7_analyze_needs_file_name_and_token_witness :
  exists token f,
    MainPage.file readyPage = Some f /\
    truthy (MainPage.projectName readyPage) = true /\
    getItem servingWorld "authToken" = Some token /\
    truthy token = true /\
    Api.reportRequest servingWorld (lit "test-token") (lit "demo") (requirements_txt 24)
    = Api.reportRequest servingWorld token (MainPage.projectName readyPage) f /\
    (MainPage.handleSubmit servingWorld readyPage).1.2
    = [Fetch (Api.reportRequest servingWorld (lit "test-token") (lit "demo")
                (requirements_txt 24))].
Proof.
  apply (proj1 (X7_analyze_needs_file_name_and_token servingWorld readyPage)).
  vm_compute. apply list_elem_of_here.
Defined.

(** X8 on the ready page. *)
Lemma X8_analyze_always_returns_witness :
  MainPage.isLoading (MainPage.handleSubmit servingWorld readyPage).1.1 = true
  <-> (MainPage.handleSubmit servingWorld readyPage).2 = Unsettled.
Proof.
  refine (proj1 (proj2 (proj2 (proj2
            (X8_analyze_always_returns servingWorld readyPage))) _)).
  reflexivity.
Defined.

(** X9 on the ready page and on the same page still showing the failed
    run of the scenario. *)
Lemma X9_analysis_forgets_the_previous_run_witness :
  MainPage.handleSubmit servingWorld
    (afterFailure readyPage [reportLine; lit "Line 2"] (ErrorObj (lit "boom")))
  = MainPage.handleSubmit servingWorld readyPage.
Proof.
  apply (X9_analysis_forgets_the_previous_run servingWorld readyPage).
  - reflexivity.
  - reflexivity.
  - reflexivity.
Defined.

(** X10 on the ready page without a session. *)
Lemma X10_refusals_reach_the_banner_witness :
  MainPage.handleSubmit unreachable readyPage
  = (afterCall readyPage [] (Rejected (ErrorObj NOT_AUTHENTICATED)), [], Fulfilled tt).
Proof.
  refine (proj1 (X10_refusals_reach_the_banner unreachable readyPage (requirements_txt 24)
                   _ _) _).
  - reflexivity.
  - reflexivity.
  - reflexivity.
Defined.

(** X11 after a file was picked, the name typed and "Analyze" clicked. *)
Lemma X11_page_file_is_the_validated_selection_witness :
  inSync (AnalysisScreen.run AnalysisScreen.initial
            (gettingReady ++ [AnalysisScreen.AnalyzeClicked])).
Proof.
  refine (proj1 (X11_page_file_is_the_validated_selection AnalysisScreen.initial
                   (gettingReady ++ [AnalysisScreen.AnalyzeClicked]) _ _)).
  - reflexivity.
  - exact I.
Defined.

(** X12 on a freshly loaded screen where a file was picked and the name
    typed. *)
Lemma X12_only_validated_files_are_uploaded_witness :
  exists token f,
    valid f /\
    truthy (MainPage.projectName
              (AnalysisScreen.page (AnalysisScreen.run AnalysisScreen.initial gettingReady)))
    = true /\
    getItem servingWorld "authToken" = Some token /\
    Api.reportRequest servingWorld (lit "test-token") (lit "demo") (requirements_txt 24)
    = Api.reportRequest servingWorld token
        (MainPage.projectName
           (AnalysisScreen.page (AnalysisScreen.run AnalysisScreen.initial gettingReady))) f /\
    body (Api.reportRequest servingWorld (lit "test-token") (lit "demo") (requirements_txt 24))
    = FormData
        [ (lit "project_name",
           Text (MainPage.projectName
                   (AnalysisScreen.page
                      (AnalysisScreen.run AnalysisScreen.initial gettingReady))));
          (lit "requirements_file", Blob f) ] /\
    requests
      (MainPage.handleSubmit servingWorld
         (AnalysisScreen.page (AnalysisScreen.run AnalysisScreen.initial gettingReady))).1.2
    = [Api.reportRequest servingWorld (lit "test-token") (lit "demo") (requirements_txt 24)].
Proof.
  apply (X12_only_validated_files_are_uploaded servingWorld gettingReady
           (Api.reportRequest servingWorld (lit "test-token") (lit "demo")
              (requirements_txt 24))).
  vm_compute. apply list_elem_of_here.
Defined.

(** X13 at the identifier ["ab  "]. *)
Lemma X13_login_gate_witness :
  exists log,
    (LoginPage.handleSubmit unreachable paddedLogin).1.2
    = Fetch (tokenRequest unreachable paddedLogin) :: log.
Proof.
  apply (proj2 (X13_login_gate unreachable paddedLogin)).
  vm_compute. lia.
Defined.

(** X14 at the identifier ["abc"]. *)
Lemma X14_login_first_error_witness :
  LoginPage.handleSubmit unreachable shortLogin
  = (LoginPage.setError
       (firstLoginError (LoginPage.email shortLogin) (LoginPage.password shortLogin))
       shortLogin, [], Fulfilled tt).
Proof.
  apply (X14_login_first_error unreachable shortLogin).
  intros [[Hmin _] _]. vm_compute in Hmin. lia.
Defined.

(** X15 against a server that cannot be reached, and against one that
    answers with the token ["tok-1"]. *)
Lemma X15_login_outcomes_witness :
  LoginPage.handleSubmit unreachable paddedLogin
  = (loginSettled paddedLogin LOGIN_FAILED, [Fetch (tokenRequest unreachable paddedLogin)],
     Fulfilled tt) /\
  LoginPage.handleSubmit tokenServer validLogin
  = (loginSettled validLogin [],
     [Fetch (tokenRequest tokenServer validLogin);
      SessionLogin (Some (JString (lit "tok-1")));
      Navigate (lit "/")],
     Fulfilled tt).
Proof.
  split.
  - refine (proj1 (proj2 (proj2 (X15_login_outcomes unreachable paddedLogin _)))
              (ErrorObj (lit "Failed to fetch")) _).
    + vm_compute. lia.
    + reflexivity.
  - refine (proj1 (proj2 (proj2 (proj2 (proj2
              (X15_login_outcomes tokenServer validLogin _)))))
              tokenAnswer
              [ (lit "access_token", JString (lit "tok-1"));
                (lit "token_type", JString (lit "bearer")) ] _ _ _).
    + vm_compute. lia.
    + reflexivity.
    + reflexivity.
    + reflexivity.
Defined.

(** X16 against a server that cannot be reached. *)
Lemma X16_signup_outcomes_witness :
  SignUpPage.handleSubmit unreachable emptyEmailSignUp
  = (SignUpPage.setError [] emptyEmailSignUp,
     [Fetch (registrationRequest unreachable emptyEmailSignUp); Navigate (lit "/login")],
     Fulfilled tt) \/
  SignUpPage.handleSubmit unreachable emptyEmailSignUp
  = (SignUpPage.setError SIGNUP_FAILED emptyEmailSignUp,
     [Fetch (registrationRequest unreachable emptyEmailSignUp)], Fulfilled tt) \/
  SignUpPage.handleSubmit unreachable emptyEmailSignUp
  = (SignUpPage.setError [] emptyEmailSignUp,
     [Fetch (registrationRequest unreachable emptyEmailSignUp)], Unsettled).
Proof.
  refine (proj1 (proj1 (X16_signup_outcomes unreachable emptyEmailSignUp) _)).
  reflexivity.
Defined.

(** X17 at ["abcd"] with the secret ["pass"] typed twice. *)
Lemma X17_signUpSchema_accepts_witness :
  exists data,
    Validators.signUpSchema
      {| Validators.su_username := lit "abcd"; Validators.su_password := lit "pass";
         Validators.su_confirmPassword := lit "pass" |}
    = Validators.Success data.
Proof.
  apply (proj2 (X17_signUpSchema_accepts (lit "abcd") (lit "pass") (lit "pass"))).
  vm_compute. split_and!; (lia || reflexivity).
Defined.



(** X20 on the chain of the main page under its guard. *)
Lemma X20_main_page_is_guarded_witness :
  Router.display false [Router.ProtectedRouteElement; Router.MainPageElement]
  = Router.ShowsLogin \/
  Router.display false [Router.ProtectedRouteElement; Router.MainPageElement]
  = Router.ShowsSignUp \/
  Router.display false [Router.ProtectedRouteElement; Router.MainPageElement]
  = Router.Redirects (lit "/login").
Proof.
  refine (proj1 (proj2 (proj2 (X20_main_page_is_guarded
            [Router.ProtectedRouteElement; Router.MainPageElement] false _)))).
  vm_compute. do 3 apply list_elem_of_further. apply list_elem_of_here.
Defined.

(** X21 on the ready page and a stream that has closed. *)
Lemma X21_view_of_a_stream_witness :
  MainPage.render (MainPage.handleSubmit servingWorld readyPage).1.1
  = {| MainPage.analyzeDisabled := false;
       MainPage.errorBanner := None;
       MainPage.waitingNotice := false;
       MainPage.report := Some (concat [reportLine; lit "Line 2"], false) |}.
Proof.
  refine (X21_view_of_a_stream servingWorld readyPage (requirements_txt 24)
            (lit "test-token") (streamed doneStream) doneStream _ _ _ _ _ _ _).
  - reflexivity.
  - reflexivity.
  - apply lookup_singleton_eq.
  - reflexivity.
  - reflexivity.
  - reflexivity.
  - reflexivity.
Defined.
